(** * setup_python_project.py: a shallow embedding and its properties

    The script scaffolds a Python project in the current directory: it
    derives a project name, creates a virtual environment, writes the
    source layout, initialises git and optionally creates a GitHub
    repository through the [gh] command line tool.

    Strings are Rocq strings whose characters stand for the code points
    0..255; the file system is a finite map from paths to nodes; external
    commands are answered by an oracle; printing, command execution and
    file creation are recorded in a log. What the external commands do to
    the working tree ([.venv], [.git]) is outside the model: the script
    never reads or writes those paths itself. *)

From Stdlib Require Import String Ascii ZArith List Bool Lia.
From stdpp Require Import base option strings gmap.

Open Scope string_scope.
Open Scope list_scope.

(* Literal prefixes of a concatenation are computed by [simpl]. *)
#[local] Arguments String.append : simpl nomatch.

(** ** Text: the fragment of Python's [str] the script relies on *)

Module Text.

(** [str.isspace] on the code points below 256; this is also the class
    [\s] of [re] for [str] patterns. *)
Definition isspace (c : ascii) : bool :=
  let n := nat_of_ascii c in
  (((9 <=? n) && (n <=? 13)) || ((28 <=? n) && (n <=? 32))
   || (n =? 133) || (n =? 160))%nat.

(** [str.lower] on one code point below 256: A-Z, and the Latin-1 capitals
    U+00C0..U+00DE except the multiplication sign U+00D7. *)
Definition lower_char (c : ascii) : ascii :=
  let n := nat_of_ascii c in
  if (((65 <=? n) && (n <=? 90))
      || ((192 <=? n) && (n <=? 222) && negb (n =? 215)))%nat
  then ascii_of_nat (n + 32) else c.

Fixpoint lower (s : string) : string :=
  match s with
  | EmptyString => EmptyString
  | String c r => String (lower_char c) (lower r)
  end.

(** [re.sub(r'[cls]+', repl, s)]: scanning from the left, every match of
    [cls+] is greedy, so the characters of the class that follow the first
    one of a match belong to that match ([in_match]); one [repl] is put out
    per match. *)
Fixpoint re_sub_class (cls : ascii -> bool) (repl : string)
         (in_match : bool) (s : string) : string :=
  match s with
  | EmptyString => EmptyString
  | String c r =>
      if cls c
      then if in_match then re_sub_class cls repl true r
           else repl ++ re_sub_class cls repl true r
      else String c (re_sub_class cls repl false r)
  end.

Definition re_sub_plus (cls : ascii -> bool) (repl s : string) : string :=
  re_sub_class cls repl false s.

(** [str.replace(old, new)] for a one-character [old]. *)
Fixpoint replace_char (old : ascii) (new : string) (s : string) : string :=
  match s with
  | EmptyString => EmptyString
  | String c r =>
      if Ascii.eqb c old then new ++ replace_char old new r
      else String c (replace_char old new r)
  end.

(** [str.strip()]: white space removed at both ends. *)
Fixpoint lstrip (s : string) : string :=
  match s with
  | EmptyString => EmptyString
  | String c r => if isspace c then lstrip r else s
  end.

Fixpoint rstrip (s : string) : string :=
  match s with
  | EmptyString => EmptyString
  | String c r =>
      match rstrip r with
      | EmptyString => if isspace c then EmptyString else String c EmptyString
      | r' => String c r'
      end
  end.

Definition strip (s : string) : string := rstrip (lstrip s).

(** Truth value of a [str]: non-empty. *)
Definition truthy (s : string) : bool :=
  match s with EmptyString => false | _ => true end.

(** [x in l] for a list of strings. *)
Fixpoint mem (x : string) (l : list string) : bool :=
  match l with
  | nil => false
  | y :: r => String.eqb y x || mem x r
  end.

End Text.

(** ** NameDeriver *)

(** The class [[\s_]] of the pattern in [get_project_name]. *)
Definition space_or_underscore (c : ascii) : bool :=
  Text.isspace c || Ascii.eqb c "_".

(** [get_project_name(prefix)]; [current_folder] is the value of
    [os.path.basename(os.getcwd())]. *)
Definition get_project_name (current_folder prefix : string) : string :=
  let sanitized_name :=
    Text.re_sub_plus space_or_underscore "-" (Text.lower current_folder) in
  prefix ++ "-" ++ sanitized_name.


(** ** The world the script runs in *)

(** A path of the working tree is a directory or a file with its text. *)
Inductive node : Type :=
| Dir
| File (content : string).

(** What running an external command gives: the executable is missing, or
    the process ran and ended with a return code and its standard output. *)
Inductive outcome : Type :=
| NotFound
| Exited (returncode : Z) (stdout : string).

(** The exceptions the script can meet. [FileNotFoundError],
    [NotADirectoryError], [IsADirectoryError] and [FileExistsError] are
    subclasses of [OSError]; none of them is a
    [subprocess.CalledProcessError]. *)
Inductive exn : Type :=
| CalledProcessError (cmd : list string) (returncode : Z)
| FileNotFoundError (filename : string)
| NotADirectoryError (filename : string)
| IsADirectoryError (filename : string)
| FileExistsError (filename : string)
| SystemExit (code : Z).

(** What an observer of a run sees, in order. *)
Inductive event : Type :=
| EPrint (line : string)
| ERun (cmd : list string) (o : outcome)
| EMakedirs (path : string)
| EWrite (path : string) (content : string).

Inductive result (A : Type) : Type :=
| Ok (a : A)
| Raise (e : exn).
Arguments Ok {A} a.
Arguments Raise {A} e.

(** A run: how it ended, the working tree it left and what it did. *)
Record run (A : Type) : Type := Run {
  res : result A;
  files : gmap string node;
  trace : list event
}.
Arguments Run {A} res files trace.
Arguments res {A} r.
Arguments files {A} r.
Arguments trace {A} r.

(** A computation of the script, started in a working tree. *)
Definition M (A : Type) : Type := gmap string node -> run A.

Definition ret {A} (a : A) : M A := fun fs => Run (Ok a) fs [].

Definition raise {A} (e : exn) : M A := fun fs => Run (Raise e) fs [].

Definition bind {A B} (m : M A) (f : A -> M B) : M B := fun fs =>
  let r := m fs in
  match res r with
  | Ok a => let r' := f a (files r) in
            Run (res r') (files r') (trace r ++ trace r')
  | Raise e => Run (Raise e) (files r) (trace r)
  end.

Declare Scope script_scope.
Delimit Scope script_scope with script.
Notation "x <- m ;; k" := (bind m (fun x => k))
  (at level 100, m at next level, right associativity) : script_scope.
Notation "m ;; k" := (bind m (fun _ => k))
  (at level 100, right associativity) : script_scope.
Open Scope script_scope.

(** [try: body  except subprocess.CalledProcessError as e: handler]: only
    that class is caught, any other exception goes on up. *)
Definition try_except_CalledProcessError {A} (body : M A)
    (handler : list string * Z -> M A) : M A := fun fs =>
  let r := body fs in
  match res r with
  | Raise (CalledProcessError cmd rc) =>
      let r' := handler (cmd, rc) (files r) in
      Run (res r') (files r') (trace r ++ trace r')
  | _ => r
  end.

(** [print(line)]. *)
Definition print (line : string) : M unit := fun fs =>
  Run (Ok tt) fs [EPrint line].

(** [sys.exit(code)]. *)
Definition sys_exit {A} (code : Z) : M A := raise (SystemExit code).

(** *** Paths and the working tree

    Paths are compared as they are written: [.], [..], doubled and trailing
    slashes are not normalised. A path without a slash lives in the
    current directory, which exists. *)

Module Path.

(** The non-empty proper prefixes of [p] that stop before a slash, the
    shortest first: the directories above [p]. [done] is the part of the
    path already read, reversed. *)
Fixpoint parents_from (done : string) (p : string) : list string :=
  match p with
  | EmptyString => []
  | String c r =>
      let rest := parents_from (String c done) r in
      if Ascii.eqb c "/"
      then match done with
           | EmptyString => rest
           | _ => String.rev done :: rest
           end
      else rest
  end.

Definition parents (p : string) : list string := parents_from EmptyString p.

(** [os.path.dirname(p)] when it is not empty. *)
Definition parent (p : string) : option string := last (parents p).

End Path.

Module FS.

(** [os.makedirs(path, exist_ok=True)] walks down from the top: a
    directory that is there is kept, one that is missing is made, and a
    file in the way is an error ([FileExistsError] for [path] itself,
    [NotADirectoryError] above it). *)
Fixpoint mkdir_chain (above : list string) (path : string)
         (fs : gmap string node) : option exn * gmap string node :=
  match above with
  | [] =>
      match fs !! path with
      | None => (None, <[path := Dir]> fs)
      | Some Dir => (None, fs)
      | Some (File _) => (Some (FileExistsError path), fs)
      end
  | d :: rest =>
      match fs !! d with
      | None => mkdir_chain rest path (<[d := Dir]> fs)
      | Some Dir => mkdir_chain rest path fs
      | Some (File _) => (Some (NotADirectoryError path), fs)
      end
  end.

Definition makedirs (path : string) (fs : gmap string node)
  : option exn * gmap string node :=
  mkdir_chain (Path.parents path) path fs.

(** [open(path, "w")], the writes and the close of a [with] block: the
    directory of [path] has to be there and [path] must not be a
    directory; the file then holds exactly the text written. *)
Definition write_text (path content : string) (fs : gmap string node)
  : option exn * gmap string node :=
  match
    match Path.parent path with
    | None => None
    | Some d =>
        match fs !! d with
        | None => Some (FileNotFoundError path)
        | Some (File _) => Some (NotADirectoryError path)
        | Some Dir => None
        end
    end
  with
  | Some e => (Some e, fs)
  | None =>
      match fs !! path with
      | Some Dir => (Some (IsADirectoryError path), fs)
      | _ => (None, <[path := File content]> fs)
      end
  end.

End FS.

Definition lift_fs (op : gmap string node -> option exn * gmap string node)
    (ev : event) : M unit := fun fs =>
  match op fs with
  | (None, fs') => Run (Ok tt) fs' [ev]
  | (Some e, fs') => Run (Raise e) fs' []
  end.

(** [os.makedirs(path, exist_ok=True)]. *)
Definition os_makedirs (path : string) : M unit :=
  lift_fs (FS.makedirs path) (EMakedirs path).

(** [with open(path, "w") as f:] followed by one [f.write] per chunk. *)
Definition with_open_w (path : string) (chunks : list string) : M unit :=
  let content := String.concat "" chunks in
  lift_fs (FS.write_text path content) (EWrite path content).

(** Characters that a Rocq string literal cannot hold as they are. *)
Definition nl : string := String (ascii_of_nat 10) EmptyString.
Definition dq : string := String (ascii_of_nat 34) EmptyString.
Definition dq3 : string := dq ++ dq ++ dq.

(** ** The script *)

Section Script.

(** The environment of a run: the answer of the system to each command
    line, [os.name], the name of the current folder
    ([os.path.basename(os.getcwd())]) and the text [str(e)] of a
    [CalledProcessError] built from a command and its return code. No
    command line is run twice in one run of the script, so a function of the
    command line covers every behaviour of the system. *)
Variable sh : list string -> outcome.
Variable os_name : string.
Variable current_folder : string.
Variable str_CalledProcessError : list string * Z -> string.

(** [subprocess.run(cmd, check=True)], giving back the captured standard
    output: a missing executable raises [FileNotFoundError], a return code
    other than zero raises [CalledProcessError]. The tree of a run holds
    what the script itself makes and writes; what a command does on the
    disk (the contents of [.venv] and of [.git]) is not part of it. *)
Definition subprocess_run (cmd : list string) : M string := fun fs =>
  match sh cmd with
  | NotFound =>
      Run (Raise (FileNotFoundError (hd "" cmd))) fs [ERun cmd NotFound]
  | Exited rc out =>
      Run (if (rc =? 0)%Z then Ok out else Raise (CalledProcessError cmd rc))
          fs [ERun cmd (Exited rc out)]
  end.

Definition setup_virtual_environment (project_name : string) : M unit :=
  print ("Creating virtual environment for " +:+ project_name +:+ "...");;
  subprocess_run ["python3"; "-m"; "venv"; ".venv"];;
  with_open_w "requirements.txt" [
      "# Project dependencies" +:+ nl
  ];;
  with_open_w "requirements-dev.txt" [
      "# Development dependencies" +:+ nl;
      "pytest" +:+ nl;
      "black" +:+ nl;
      "flake8" +:+ nl;
      "mypy" +:+ nl
  ];;
  let pip_path :=
    if String.eqb os_name "nt" then ".venv/Scripts/pip" else ".venv/bin/pip" in
  subprocess_run [pip_path; "install"; "--upgrade"; "pip"];;
  subprocess_run [pip_path; "install"; "-r"; "requirements-dev.txt"];;
  print "Virtual environment created and dependencies installed.".

Definition create_project_structure (project_name : string) : M unit :=
  print ("Creating project structure for " +:+ project_name +:+ "...");;
  os_makedirs ("src/" +:+ Text.replace_char "-" "_" project_name);;
  os_makedirs "tests";;
  os_makedirs "docs";;
  let package_dir := "src/" +:+ Text.replace_char "-" "_" project_name in
  with_open_w (package_dir +:+ "/__init__.py") [
      dq3 +:+ "Main package for " +:+ project_name +:+ "." +:+ dq3 +:+ nl +:+ nl;
      "__version__ = '0.1.0'" +:+ nl
  ];;
  with_open_w (package_dir +:+ "/main.py") [
      dq3 +:+ "Main module for " +:+ project_name +:+ "." +:+ dq3 +:+ nl +:+ nl;
      "def main():" +:+ nl;
      "    " +:+ dq3 +:+ "Main entry point." +:+ dq3 +:+ nl;
      "    print(" +:+ dq +:+ "Hello, world!" +:+ dq +:+ ")" +:+ nl +:+ nl +:+ nl;
      "if __name__ == " +:+ dq +:+ "__main__" +:+ dq +:+ ":" +:+ nl;
      "    main()" +:+ nl
  ];;
  with_open_w "tests/test_main.py" [
      dq3 +:+ "Tests for " +:+ project_name +:+ "." +:+ dq3 +:+ nl +:+ nl;
      "from " +:+ Text.replace_char "-" "_" project_name
        +:+ ".main import main" +:+ nl +:+ nl;
      "def test_main():" +:+ nl;
      "    " +:+ dq3 +:+ "Test the main function." +:+ dq3 +:+ nl;
      "    # This is a placeholder test" +:+ nl;
      "    assert True" +:+ nl
  ];;
  with_open_w "setup.py" [
      dq3 +:+ "Package setup." +:+ dq3 +:+ nl +:+ nl;
      "from setuptools import setup, find_packages" +:+ nl +:+ nl;
      "setup(" +:+ nl;
      "    name=" +:+ dq +:+ project_name +:+ dq +:+ "," +:+ nl;
      "    version=" +:+ dq +:+ "0.1.0" +:+ dq +:+ "," +:+ nl;
      "    packages=find_packages(where=" +:+ dq +:+ "src" +:+ dq +:+ "),"
        +:+ nl;
      "    package_dir={" +:+ dq +:+ dq +:+ ": " +:+ dq +:+ "src" +:+ dq
        +:+ "}," +:+ nl;
      "    install_requires=[" +:+ nl;
      "        # List your dependencies here" +:+ nl;
      "    ]," +:+ nl;
      ")" +:+ nl
  ];;
  with_open_w "pyproject.toml" [
      "[build-system]" +:+ nl;
      "requires = [" +:+ dq +:+ "setuptools>=42" +:+ dq +:+ ", " +:+ dq
        +:+ "wheel" +:+ dq +:+ "]" +:+ nl;
      "build-backend = " +:+ dq +:+ "setuptools.build_meta" +:+ dq
        +:+ nl +:+ nl;
      "[tool.black]" +:+ nl;
      "line-length = 88" +:+ nl;
      "target-version = [" +:+ dq +:+ "py38" +:+ dq +:+ "]" +:+ nl
  ];;
  print "Project structure created.".

Definition get_github_username : M string :=
  try_except_CalledProcessError
    (result_stdout <- subprocess_run ["gh"; "api"; "user"; "--jq"; ".login"];;
     let username := Text.strip result_stdout in
     ret (if Text.truthy username then username else "yourusername"))
    (fun _ => ret "yourusername").

Definition setup_git (project_name : string) (use_github : bool)
    (visibility : string) : M unit :=
  print "Setting up Git repository...";;
  github_username <-
    (if use_github then get_github_username else ret "yourusername");;
  visibility <-
    (if negb (Text.mem visibility ["public"; "private"])
     then print ("Warning: Invalid visibility '" +:+ visibility
                 +:+ "'. Defaulting to 'private'.");;
          ret "private"
     else ret visibility);;
  with_open_w ".gitignore" [
      "# Python" +:+ nl;
      "__pycache__/" +:+ nl;
      "*.py[cod]" +:+ nl;
      "*$py.class" +:+ nl;
      "*.so" +:+ nl;
      ".Python" +:+ nl;
      "env/" +:+ nl;
      "build/" +:+ nl;
      "develop-eggs/" +:+ nl;
      "dist/" +:+ nl;
      "downloads/" +:+ nl;
      "eggs/" +:+ nl;
      ".eggs/" +:+ nl;
      "lib/" +:+ nl;
      "lib64/" +:+ nl;
      "parts/" +:+ nl;
      "sdist/" +:+ nl;
      "var/" +:+ nl;
      "*.egg-info/" +:+ nl;
      ".installed.cfg" +:+ nl;
      "*.egg" +:+ nl +:+ nl;
      "# Virtual Environment" +:+ nl;
      ".venv/" +:+ nl;
      "venv/" +:+ nl;
      "ENV/" +:+ nl +:+ nl;
      "# IDE" +:+ nl;
      ".idea/" +:+ nl;
      ".vscode/" +:+ nl;
      "*.swp" +:+ nl;
      "*.swo" +:+ nl +:+ nl;
      "# Testing" +:+ nl;
      ".coverage" +:+ nl;
      "htmlcov/" +:+ nl;
      ".pytest_cache/" +:+ nl
  ];;
  with_open_w "README.md" [
      "# " +:+ project_name +:+ nl +:+ nl;
      "## Description" +:+ nl +:+ nl;
      "A brief description of the project." +:+ nl +:+ nl;
      "## Installation" +:+ nl +:+ nl;
      "```bash" +:+ nl;
      "# Clone the repository" +:+ nl;
      "git clone https://github.com/" +:+ github_username +:+ "/"
        +:+ project_name +:+ ".git" +:+ nl;
      "cd " +:+ project_name +:+ nl +:+ nl;
      "# Create and activate virtual environment" +:+ nl;
      "python -m venv .venv" +:+ nl;
      "source .venv/bin/activate  # On Windows: .venv\Scripts\activate"
        +:+ nl +:+ nl;
      "# Install dependencies" +:+ nl;
      "pip install -r requirements.txt" +:+ nl;
      "```" +:+ nl +:+ nl;
      "## Usage" +:+ nl +:+ nl;
      "```python" +:+ nl;
      "from " +:+ Text.replace_char "-" "_" project_name
        +:+ ".main import main" +:+ nl +:+ nl;
      "main()" +:+ nl;
      "```" +:+ nl
  ];;
  subprocess_run ["git"; "init"];;
  subprocess_run ["git"; "add"; "."];;
  subprocess_run ["git"; "commit"; "-m";
                  "Initial commit with project structure"];;
  (if use_github then
     try_except_CalledProcessError
       (subprocess_run ["gh"; "--version"];;
        print ("Creating GitHub repository for " +:+ project_name +:+ "...");;
        try_except_CalledProcessError
          (subprocess_run ["gh"; "repo"; "create"; project_name;
                           "--" +:+ visibility; "--source=.";
                           "--remote=origin"];;
           print ("GitHub repository created: " +:+ project_name);;
           subprocess_run ["git"; "push"; "-u"; "origin"; "main"];;
           print "Initial commit pushed to GitHub.")
          (fun e =>
           print ("Error creating GitHub repository: "
                  +:+ str_CalledProcessError e);;
           print "You can manually create and connect to GitHub repository:";;
           print ("1. Create a new repository named '" +:+ project_name
                  +:+ "' on GitHub");;
           print "2. Run the following commands to connect to GitHub:";;
           print ("   git remote add origin https://github.com/"
                  +:+ github_username +:+ "/" +:+ project_name +:+ ".git");;
           print "   git branch -M main";;
           print "   git push -u origin main"))
       (fun _ =>
        print ("GitHub CLI (gh) not found. Please install GitHub CLI to "
               +:+ "automate repository creation.");;
        print "You can install it from: https://cli.github.com/";;
        print (nl +:+ "Manual GitHub setup:");;
        print ("1. Create a new repository named '" +:+ project_name
               +:+ "' on GitHub");;
        print "2. Run the following commands to connect to GitHub:";;
        print ("   git remote add origin https://github.com/"
               +:+ github_username +:+ "/" +:+ project_name +:+ ".git");;
        print "   git branch -M main";;
        print "   git push -u origin main")
   else
     print (nl +:+ "Skipping GitHub repository creation as requested.");;
     print "You can manually create and connect to GitHub repository:";;
     print ("1. Create a new repository named '" +:+ project_name
            +:+ "' on GitHub");;
     print "2. Run the following commands to connect to GitHub:";;
     print ("   git remote add origin https://github.com/"
            +:+ github_username +:+ "/" +:+ project_name +:+ ".git");;
     print "   git branch -M main";;
     print "   git push -u origin main");;
  print (nl +:+ "Git repository initialized with initial commit.").

(** [main()], with [argv] for [sys.argv]. *)
Definition main (argv : list string) : M unit :=
  (if (length argv <? 2)%nat then
     print "Error: Missing prefix argument.";;
     print "Usage: ./setup_python_project.py <prefix> [--no-github] [--public]";;
     sys_exit 1
   else ret tt);;
  let prefix := nth 1 argv "" in
  let project_name := get_project_name current_folder prefix in
  let use_github := negb (Text.mem "--no-github" argv) in
  let visibility := if Text.mem "--public" argv then "public" else "private" in
  print ("Setting up Python project: " +:+ project_name);;
  setup_virtual_environment project_name;;
  create_project_structure project_name;;
  setup_git project_name use_github visibility;;
  print (nl +:+ "Project setup complete for " +:+ project_name +:+ "!");;
  print "Don't forget to activate your virtual environment:";;
  (if String.eqb os_name "nt" then print ".venv\Scripts\activate"
   else print "source .venv/bin/activate").

End Script.

(** The exit status of the process that runs [main()] as the script does:
    0 when [main] returns, the code given to [sys.exit], and 1 for an
    exception nobody caught. *)
Definition status_of {A} (r : result A) : Z :=
  match r with
  | Ok _ => 0
  | Raise (SystemExit code) => code
  | Raise _ => 1
  end.

Definition exit_status {A} (r : run A) : Z := status_of (res r).

(** ** What the specification says about names *)

Module NameSpec.

(** The longest prefix of characters of the class is dropped: what is left
    after a maximal run that starts here. *)
Fixpoint drop_run (cls : ascii -> bool) (s : string) : string :=
  match s with
  | EmptyString => EmptyString
  | String c r => if cls c then drop_run cls r else s
  end.

(** "Replace every maximal run of characters of the class with a single
    hyphen", with [fuel] bounding the number of characters still to read. *)
Fixpoint replace_runs_fuel (fuel : nat) (cls : ascii -> bool) (s : string)
  : string :=
  match fuel with
  | O => EmptyString
  | S fuel' =>
      match s with
      | EmptyString => EmptyString
      | String c r =>
          if cls c
          then String "-" (replace_runs_fuel fuel' cls (drop_run cls r))
          else String c (replace_runs_fuel fuel' cls r)
      end
  end.

Definition replace_maximal_runs (cls : ascii -> bool) (s : string) : string :=
  replace_runs_fuel (String.length s) cls s.

(** The name as the specification derives it. *)
Definition derive (prefix currentDirectoryName : string) : string :=
  prefix +:+ "-" +:+
  replace_maximal_runs space_or_underscore (Text.lower currentDirectoryName).

(** The class [[a-z0-9-]]. *)
Definition name_char (c : ascii) : bool :=
  let n := nat_of_ascii c in
  (((97 <=? n) && (n <=? 122)) || ((48 <=? n) && (n <=? 57)) || (n =? 45))%nat.

Fixpoint all_chars (p : ascii -> bool) (s : string) : bool :=
  match s with
  | EmptyString => true
  | String c r => p c && all_chars p r
  end.

(** [s] without the prefix [p], when it starts with [p]. *)
Fixpoint strip_prefix (p s : string) : option string :=
  match p, s with
  | EmptyString, _ => Some s
  | String a p', String b s' =>
      if Ascii.eqb a b then strip_prefix p' s' else None
  | String _ _, EmptyString => None
  end.

(** [s] matches [^<escaped prefix>-[a-z0-9-]+$]: the prefix as it is, a
    hyphen, then one or more characters of the class up to the end. *)
Definition matches_name_pattern (prefix s : string) : bool :=
  match strip_prefix (prefix +:+ "-") s with
  | Some t => Text.truthy t && all_chars name_char t
  | None => false
  end.

(** The characters a directory name is made of when the pattern is sure
    to hold: ASCII letters, digits, hyphens, white space and underscores. *)
Definition plain_char (c : ascii) : bool :=
  let n := nat_of_ascii c in
  name_char c || ((65 <=? n) && (n <=? 90))%nat || space_or_underscore c.

(** The substitution of [get_project_name] again, each character of the
    result marked [true] when it is a hyphen put in for a run and [false]
    when it is a character of the name itself. *)
Fixpoint sub_marked (cls : ascii -> bool) (in_match : bool) (s : string)
  : list (bool * ascii) :=
  match s with
  | EmptyString => []
  | String c r =>
      if cls c
      then if in_match then sub_marked cls true r
           else (true, "-"%char) :: sub_marked cls true r
      else (false, c) :: sub_marked cls false r
  end.

Fixpoint unmark (l : list (bool * ascii)) : string :=
  match l with
  | [] => EmptyString
  | (_, c) :: r => String c (unmark r)
  end.

(** No two neighbours are both marked. *)
Fixpoint no_adjacent_marks (l : list (bool * ascii)) : bool :=
  match l with
  | (true, _) :: (((true, _) :: _) as r) => false
  | _ :: r => no_adjacent_marks r
  | [] => true
  end.

(** [s] holds two hyphens in a row. *)
Fixpoint has_double_hyphen (s : string) : bool :=
  match s with
  | String a ((String b _) as r) =>
      (Ascii.eqb a "-" && Ascii.eqb b "-") || has_double_hyphen r
  | _ => false
  end.

Definition has_hyphen (s : string) : bool :=
  negb (all_chars (fun c => negb (Ascii.eqb c "-")) s).

End NameSpec.

(** ** Observations on a trace *)

(** The lines printed, in order. *)
Fixpoint printed (t : list event) : list string :=
  match t with
  | [] => []
  | EPrint line :: r => line :: printed r
  | _ :: r => printed r
  end.

(** The command lines handed to the system, in order. *)
Fixpoint commands (t : list event) : list (list string) :=
  match t with
  | [] => []
  | ERun cmd _ :: r => cmd :: commands r
  | _ :: r => commands r
  end.

(** The texts written to [path], in order. *)
Fixpoint written (path : string) (t : list event) : list string :=
  match t with
  | [] => []
  | EWrite p content :: r =>
      if String.eqb p path then content :: written path r else written path r
  | _ :: r => written path r
  end.

(** [gh ...]: any use of the hosting command line tool. *)
Definition is_gh (cmd : list string) : bool :=
  match cmd with
  | a :: _ => String.eqb a "gh"
  | [] => false
  end.

(** [gh --version]: the presence check. *)
Definition is_gh_version (cmd : list string) : bool :=
  match cmd with
  | [a; b] => String.eqb a "gh" && String.eqb b "--version"
  | _ => false
  end.

(** [gh repo create ...]: the creation of the remote repository. *)
Definition is_repo_create (cmd : list string) : bool :=
  match cmd with
  | a :: b :: c :: _ =>
      String.eqb a "gh" && String.eqb b "repo" && String.eqb c "create"
  | _ => false
  end.

(** [git push ...]. *)
Definition is_push (cmd : list string) : bool :=
  match cmd with
  | a :: b :: _ => String.eqb a "git" && String.eqb b "push"
  | _ => false
  end.

(** Some command of the kind [p] ran and ended with return code zero. *)
Definition succeeded (p : list string -> bool) (t : list event) : bool :=
  existsb (fun e => match e with
                    | ERun cmd (Exited rc _) => p cmd && (rc =? 0)%Z
                    | _ => false
                    end) t.

(** Some command of the kind [p] ran and ended with another return code. *)
Definition exited_nonzero (p : list string -> bool) (t : list event) : bool :=
  existsb (fun e => match e with
                    | ERun cmd (Exited rc _) => p cmd && negb (rc =? 0)%Z
                    | _ => false
                    end) t.

Fixpoint starts_with (blk l : list string) : bool :=
  match blk, l with
  | [], _ => true
  | b :: blk', x :: l' => String.eqb b x && starts_with blk' l'
  | _ :: _, [] => false
  end.

(** How many times the lines [blk] occur in a row in [l]. *)
Fixpoint count_block (blk l : list string) : nat :=
  match l with
  | [] => 0
  | _ :: r => (if starts_with blk l then 1 else 0) + count_block blk r
  end.

(** The lines [l] end with the lines [blk]. *)
Definition ends_with (blk l : list string) : bool :=
  starts_with (rev blk) (rev l).

(** The manual instructions that [setup_git] prints in three places: the
    repository to create under the account, and the add-remote,
    rename-branch and push commands. *)
Definition manual_instructions (github_username project_name : string)
  : list string :=
  [ "1. Create a new repository named '" +:+ project_name +:+ "' on GitHub";
    "2. Run the following commands to connect to GitHub:";
    "   git remote add origin https://github.com/" +:+ github_username
      +:+ "/" +:+ project_name +:+ ".git";
    "   git branch -M main";
    "   git push -u origin main" ].

(** What is printed last when [setup_git] and then [main] come to their
    end: the last line of [setup_git], the success message and the reminder
    of the activation command. *)
Definition closing_lines (os_name project_name : string) : list string :=
  [ nl +:+ "Git repository initialized with initial commit.";
    nl +:+ "Project setup complete for " +:+ project_name +:+ "!";
    "Don't forget to activate your virtual environment:";
    if String.eqb os_name "nt" then ".venv\Scripts\activate"
    else "source .venv/bin/activate" ].

(** The [git push] of [setup_git]. *)
Definition push_command : list string :=
  ["git"; "push"; "-u"; "origin"; "main"].

(** The commands of the remote step whose failure [setup_git] turns into
    instructions: the presence check, the creation and the push. *)
Definition is_remote_step (cmd : list string) : bool :=
  is_gh_version cmd || is_repo_create cmd || is_push cmd.

(** The first line of the manual instructions. *)
Definition instructions_heading (project_name : string) : string :=
  "1. Create a new repository named '" +:+ project_name +:+ "' on GitHub".

(** The printed lines that give the add-remote command. *)
Definition is_remote_add (line : string) : bool :=
  match NameSpec.strip_prefix "   git remote add origin" line with
  | Some _ => true
  | None => false
  end.

(** The line of the readme that clones the repository of an account. *)
Definition clone_line (github_username project_name : string) : string :=
  "git clone https://github.com/" +:+ github_username +:+ "/"
  +:+ project_name +:+ ".git" +:+ nl.

(** The warning of [setup_git] about a visibility it does not know. *)
Definition visibility_warning (visibility : string) : string :=
  "Warning: Invalid visibility '" +:+ visibility
  +:+ "'. Defaulting to 'private'.".

(** The run [r] did what the run [r'] did, and printed the line [w] at
    one point in between. *)
Definition line_inserted {A} (w : string) (r r' : run A) : Prop :=
  exists pre post,
    trace r = pre ++ EPrint w :: post /\ trace r' = pre ++ post.

(** Two runs that end the same way, leave the same working tree and hand
    the same commands to the system. *)
Definition same_outcome {A} (r r' : run A) : Prop :=
  res r = res r' /\ files r = files r'
  /\ commands (trace r) = commands (trace r').

(** [sub] occurs in [s]. *)
Definition contains (s sub : string) : Prop :=
  exists pre post, s = pre +:+ sub +:+ post.

(** ** The layout as a list of steps

    [create_project_structure] prints, makes directories and writes files,
    one after the other; such a sequence can be run from a list. *)

Inductive step : Type :=
| SPrint (line : string)
| SMakedirs (path : string)
| SWrite (path : string) (chunks : list string).

Definition exec_step (s : step) : M unit :=
  match s with
  | SPrint line => print line
  | SMakedirs path => os_makedirs path
  | SWrite path chunks => with_open_w path chunks
  end.

Fixpoint exec_steps (l : list step) : M unit :=
  match l with
  | [] => ret tt
  | s :: r => exec_step s;; exec_steps r
  end.

(** What a step that went well leaves in the trace. *)
Definition step_event (s : step) : event :=
  match s with
  | SPrint line => EPrint line
  | SMakedirs path => EMakedirs path
  | SWrite path chunks => EWrite path (String.concat "" chunks)
  end.

(** The files a list of steps writes. *)
Fixpoint write_paths (l : list step) : list string :=
  match l with
  | [] => []
  | SWrite path _ :: r => path :: write_paths r
  | _ :: r => write_paths r
  end.

(** The working tree already is what the step makes it. *)
Definition settled (fs : gmap string node) (s : step) : Prop :=
  match s with
  | SPrint _ => True
  | SMakedirs path =>
      forall d, In d (Path.parents path ++ [path]) -> fs !! d = Some Dir
  | SWrite path chunks =>
      fs !! path = Some (File (String.concat "" chunks))
      /\ forall d, Path.parent path = Some d -> fs !! d = Some Dir
  end.

(** The paths a settled step depends on are not written by [s']. *)
Definition apart (s s' : step) : Prop :=
  match s with
  | SWrite path _ => ~ In path (write_paths [s'])
  | _ => True
  end.

(** ** Sample environments *)

Module Sample.

(** Every command is found and ends well; [gh api user] answers with a
    login. *)
Definition sh_all_ok (cmd : list string) : outcome :=
  Exited 0 ("octocat" +:+ nl).

(** As [sh_all_ok], but [git push] ends with return code 1. *)
Definition sh_push_fails (cmd : list string) : outcome :=
  if is_push cmd then Exited 1 "" else sh_all_ok cmd.

(** As [sh_all_ok], but [gh repo create] ends with return code 1. *)
Definition sh_create_fails (cmd : list string) : outcome :=
  if is_repo_create cmd then Exited 1 "" else sh_all_ok cmd.

(** A host without the [gh] executable. *)
Definition sh_no_gh (cmd : list string) : outcome :=
  if is_gh cmd then NotFound else sh_all_ok cmd.

(** A host on which [git commit] ends with return code 128, as it does
    when no author identity is configured. *)
Definition sh_commit_fails (cmd : list string) : outcome :=
  match cmd with
  | a :: b :: _ => if String.eqb a "git" && String.eqb b "commit"
                   then Exited 128 "" else sh_all_ok cmd
  | _ => sh_all_ok cmd
  end.

(** A rendering of a [CalledProcessError]. *)
Definition str_error (e : list string * Z) : string :=
  "Command '" +:+ String.concat " " (fst e)
  +:+ "' returned non-zero exit status.".

Definition argv_acme : list string := ["setup_python_project.py"; "acme"].

Definition argv_acme_no_github : list string :=
  ["setup_python_project.py"; "acme"; "--no-github"].

End Sample.

(** ** Two sentences of the specification, as they are written *)

(** "When the creation of the remote repository succeeds, a failure of the
    push that follows is fatal: the run aborts and no manual instructions
    are printed." *)
Definition push_failure_is_fatal (r : run unit) (project_name : string)
  : Prop :=
  succeeded is_repo_create (trace r) = true ->
  exited_nonzero is_push (trace r) = true ->
  (exists e, res r = Raise e)
  /\ forall u, count_block (manual_instructions u project_name)
                 (printed (trace r)) = 0%nat.

(** "With the remote host disabled, no creation and no push is attempted
    and the manual instructions are printed exactly once." *)
Definition no_remote_and_instructions_once (r : run unit)
    (project_name : string) : Prop :=
  forallb (fun cmd => negb (is_repo_create cmd || is_push cmd))
          (commands (trace r)) = true
  /\ count_block (manual_instructions "yourusername" project_name)
       (printed (trace r)) = 1%nat.

(** ** What a derived name is made of *)

Module NameFacts.

(** A character that [str.lower] leaves as it is and that is neither white
    space nor an underscore: what a derived name is made of. *)
Definition settled_char (c : ascii) : bool :=
  negb (space_or_underscore c) && Ascii.eqb (Text.lower_char c) c.

(** The folder part of a derived name. *)
Definition sanitized (current_folder : string) : string :=
  Text.re_sub_plus space_or_underscore "-" (Text.lower current_folder).

End NameFacts.

(** ** The commands and texts of the environment step *)


(** The installer inside the environment, by [os.name]. *)
Definition pip_path (os_name : string) : string :=
  if String.eqb os_name "nt" then ".venv/Scripts/pip" else ".venv/bin/pip".



(** The command was found and ended with return code zero. *)
Definition exits_zero (o : outcome) : bool :=
  match o with
  | Exited rc _ => (rc =? 0)%Z
  | NotFound => false
  end.




(** ** The layout *)

(** The directories and files of the layout, for a project name. *)
Definition package_dir (project_name : string) : string :=
  "src/" +:+ Text.replace_char "-" "_" project_name.

Definition layout_directories (project_name : string) : list string :=
  ["src"; package_dir project_name; "tests"; "docs"].

Definition layout_files (project_name : string) : list string :=
  [ package_dir project_name +:+ "/__init__.py";
    package_dir project_name +:+ "/main.py";
    "tests/test_main.py"; "setup.py"; "pyproject.toml" ].

(** ** The tree and the log *)

(** The files a run of the whole script writes, for a project name. *)
Definition artifacts (project_name : string) : list string :=
  ["requirements.txt"; "requirements-dev.txt"]
  ++ layout_files project_name ++ [".gitignore"; "README.md"].

(** The paths of the files a trace reports written, in order. *)
Fixpoint write_targets (t : list event) : list string :=
  match t with
  | [] => []
  | EWrite path _ :: r => path :: write_targets r
  | _ :: r => write_targets r
  end.

(** The paths handed to [os.makedirs], as a trace reports them, in
    order. *)
Fixpoint makedirs_targets (t : list event) : list string :=
  match t with
  | [] => []
  | EMakedirs path :: r => path :: makedirs_targets r
  | _ :: r => makedirs_targets r
  end.

(** From the tree [fs] to the tree [fs'] by a run with the trace [t]: no
    directory is gone, and a file that the trace does not report written
    is as it was. *)
Definition keeps (fs fs' : gmap string node) (t : list event) : Prop :=
  (forall d, fs !! d = Some Dir -> fs' !! d = Some Dir)
  /\ (forall path text,
        fs !! path = Some (File text) -> written path t = [] ->
        fs' !! path = Some (File text)).

(** The tree [fs'] holds what the trace [t] reports: every file with the
    text written to it last, every directory made, with those above it. *)
Definition reflects (fs' : gmap string node) (t : list event) : Prop :=
  (forall path text,
     last (written path t) = Some text -> fs' !! path = Some (File text))
  /\ (forall path d,
        In (EMakedirs path) t -> In d (Path.parents path ++ [path]) ->
        fs' !! d = Some Dir).

(** A computation whose trace tells what it does to the tree. *)
Definition faithful {A} (m : M A) : Prop :=
  forall fs,
    keeps fs (files (m fs)) (trace (m fs))
    /\ reflects (files (m fs)) (trace (m fs)).

(** ** The order of a run *)

(** [python3 -m venv ...]: the creation of the environment. *)
Definition is_venv (cmd : list string) : bool :=
  match cmd with
  | a :: _ :: c :: _ => String.eqb a "python3" && String.eqb c "venv"
  | _ => false
  end.

(** [<pip> install ...]: a use of the installer. *)
Definition is_pip (cmd : list string) : bool :=
  match cmd with
  | _ :: b :: _ => String.eqb b "install"
  | _ => false
  end.

(** [<pip> install -r ...]: the installation of the development tools. *)
Definition is_pip_requirements (cmd : list string) : bool :=
  match cmd with
  | _ :: b :: c :: _ => String.eqb b "install" && String.eqb c "-r"
  | _ => false
  end.

(** [git init], [git add] and [git commit]. *)
Definition is_git_local (cmd : list string) : bool :=
  match cmd with
  | a :: b :: _ =>
      String.eqb a "git"
      && (String.eqb b "init" || String.eqb b "add" || String.eqb b "commit")
  | _ => false
  end.

Definition is_git_add (cmd : list string) : bool :=
  match cmd with
  | a :: b :: _ => String.eqb a "git" && String.eqb b "add"
  | _ => false
  end.

Definition is_git_commit (cmd : list string) : bool :=
  match cmd with
  | a :: b :: _ => String.eqb a "git" && String.eqb b "commit"
  | _ => false
  end.

(** The event is a command of the kind [p]. *)
Definition is_command (p : list string -> bool) (e : event) : bool :=
  match e with
  | ERun cmd _ => p cmd
  | _ => false
  end.

(** The event makes a directory or writes a file. *)
Definition is_file_event (e : event) : bool :=
  match e with
  | EMakedirs _ | EWrite _ _ => true
  | _ => false
  end.

(** The event belongs to the layout or to the local repository: a
    directory made, or [git init], [git add], [git commit]. *)
Definition is_layout_or_git (e : event) : bool :=
  match e with
  | EMakedirs _ => true
  | ERun cmd _ => is_git_local cmd
  | _ => false
  end.

(** Every event of the kind [q] comes after a command of the kind [p]
    that ended with return code zero; [seen] tells whether such a command
    has been met. *)
Fixpoint guarded (p : list string -> bool) (q : event -> bool)
         (seen : bool) (t : list event) : bool :=
  match t with
  | [] => true
  | e :: r =>
      (negb (q e) || seen)
      && guarded p q
           (seen || match e with
                    | ERun cmd o => p cmd && exits_zero o
                    | _ => false
                    end) r
  end.

(** No event of the kind [q] comes after a command of the kind [p]. *)
Fixpoint never_after (p : list string -> bool) (q : event -> bool)
         (seen : bool) (t : list event) : bool :=
  match t with
  | [] => true
  | e :: r =>
      (negb (q e) || negb seen)
      && never_after p q (seen || is_command p e) r
  end.

(** The [gh repo create] of [setup_git], for a project name and a
    visibility. *)
Definition create_command (project_name visibility : string) : list string :=
  ["gh"; "repo"; "create"; project_name; "--" +:+ visibility; "--source=.";
   "--remote=origin"].

(** ** Paths in normal form *)







(** ** A sample working tree and sample arguments *)

Module SampleTree.


Definition argv_acme_public : list string :=
  ["setup_python_project.py"; "acme"; "--public"].

End SampleTree.

(** ** Reasoning about runs *)

(** The exceptions of the file system operations. *)
Definition is_OSError (e : exn) : bool :=
  match e with
  | FileNotFoundError _ | NotADirectoryError _
  | IsADirectoryError _ | FileExistsError _ => true
  | CalledProcessError _ _ | SystemExit _ => false
  end.

(** After the events [pre], the computation [m] started in [fs] ends with
    a result and with a trace of the whole run that satisfy [P]. *)
Definition holds {A} (P : result A -> list event -> Prop)
    (pre : list event) (m : M A) (fs : gmap string node) : Prop :=
  P (res (m fs)) (pre ++ trace (m fs)).

(** * Properties *)

(** ** NameDeriver *)

Example derive_acme : get_project_name "My Project" "acme" = "acme-my-project".
Proof. reflexivity. Qed.

Example derive_hyphenated :
  get_project_name "already-hyphenated" "x" = "x-already-hyphenated".
Proof. reflexivity. Qed.

Example derive_mixed_runs : get_project_name "A _ b__C" "p" = "p-a-b-c".
Proof. reflexivity. Qed.

Section Substitution.

Variable cls : ascii -> bool.

Lemma drop_run_length (s : string) :
  (String.length (NameSpec.drop_run cls s) <= String.length s)%nat.
Proof.
  induction s as [|c r IH]; simpl; [lia|].
  destruct (cls c); simpl; lia.
Qed.

(** Inside a match, the rest of the run is skipped. *)
Lemma re_sub_class_in_match (repl s : string) :
  Text.re_sub_class cls repl true s
  = Text.re_sub_class cls repl false (NameSpec.drop_run cls s).
Proof.
  induction s as [|c r IH]; simpl; [reflexivity|].
  destruct (cls c) eqn:E; [exact IH|].
  simpl. rewrite E. reflexivity.
Qed.

(** With fuel for every character, the specification's reading of the
    substitution is the scanner's. *)
Lemma replace_runs_fuel_scan (fuel : nat) (s : string) :
  (String.length s <= fuel)%nat ->
  NameSpec.replace_runs_fuel fuel cls s = Text.re_sub_class cls "-" false s.
Proof.
  revert s. induction fuel as [|fuel IH]; intros s Hlen.
  - destruct s; simpl in *; [reflexivity|lia].
  - destruct s as [|c r]; simpl in *; [reflexivity|].
    destruct (cls c).
    + rewrite re_sub_class_in_match. rewrite IH; [reflexivity|].
      pose proof (drop_run_length r). lia.
    + rewrite IH; [reflexivity|lia].
Qed.

Lemma replace_maximal_runs_scan (s : string) :
  NameSpec.replace_maximal_runs cls s = Text.re_sub_plus cls "-" s.
Proof. apply replace_runs_fuel_scan. lia. Qed.

(** More fuel than the length changes nothing. *)
Lemma replace_runs_fuel_enough (fuel : nat) (s : string) :
  (String.length s <= fuel)%nat ->
  NameSpec.replace_runs_fuel fuel cls s = NameSpec.replace_maximal_runs cls s.
Proof.
  intros H. rewrite replace_runs_fuel_scan by exact H.
  symmetry. apply replace_maximal_runs_scan.
Qed.

Lemma unmark_sub_marked (b : bool) (s : string) :
  NameSpec.unmark (NameSpec.sub_marked cls b s)
  = Text.re_sub_class cls "-" b s.
Proof.
  revert b. induction s as [|c r IH]; intros b; simpl; [reflexivity|].
  destruct (cls c); [destruct b|]; simpl; rewrite IH; reflexivity.
Qed.

Lemma sub_marked_no_adjacent (s : string) :
  NameSpec.no_adjacent_marks (NameSpec.sub_marked cls false s) = true
  /\ NameSpec.no_adjacent_marks
       ((true, "-"%char) :: NameSpec.sub_marked cls true s) = true
  /\ NameSpec.no_adjacent_marks (NameSpec.sub_marked cls true s) = true.
Proof.
  induction s as [|c r (IH1 & IH2 & IH3)]; simpl; [auto|].
  destruct (cls c); simpl; auto.
Qed.

(** The scanner keeps the characters outside the class and adds hyphens. *)
Lemma re_sub_class_all_chars (p : ascii -> bool) (b : bool) (s : string) :
  p "-"%char = true ->
  NameSpec.all_chars (fun c => cls c || p c) s = true ->
  NameSpec.all_chars p (Text.re_sub_class cls "-" b s) = true.
Proof.
  intros Hp. revert b. induction s as [|c r IH]; intros b; simpl; [auto|].
  rewrite andb_true_iff. intros [Hc Hr].
  destruct (cls c) eqn:E.
  - destruct b; simpl; rewrite ?Hp; simpl; auto.
  - simpl in *. rewrite Hc. simpl. auto.
Qed.

Lemma re_sub_class_nonempty (s : string) :
  Text.truthy s = true ->
  Text.truthy (Text.re_sub_class cls "-" false s) = true.
Proof. destruct s as [|c r]; simpl; [auto|]. destruct (cls c); auto. Qed.

End Substitution.

Lemma strip_prefix_app (p t : string) :
  NameSpec.strip_prefix p (p +:+ t) = Some t.
Proof.
  induction p as [|c p IH]; simpl; [reflexivity|].
  rewrite Ascii.eqb_refl. exact IH.
Qed.

Lemma append_assoc (a b c : string) : (a +:+ b) +:+ c = a +:+ (b +:+ c).
Proof. induction a as [|x a IH]; simpl; [reflexivity|]. rewrite IH. reflexivity. Qed.

(** Lower-casing a plain character gives a separator or a character of
    the class [[a-z0-9-]]. *)
Lemma lower_plain_char (c : ascii) :
  NameSpec.plain_char c = true ->
  space_or_underscore (Text.lower_char c)
  || NameSpec.name_char (Text.lower_char c) = true.
Proof.
  destruct c as [[] [] [] [] [] [] [] []]; vm_compute; intros H;
    first [reflexivity | discriminate H].
Qed.

Lemma lower_all_plain (s : string) :
  NameSpec.all_chars NameSpec.plain_char s = true ->
  NameSpec.all_chars
    (fun c => space_or_underscore c || NameSpec.name_char c)
    (Text.lower s) = true.
Proof.
  induction s as [|c r IH]; simpl; [auto|].
  rewrite andb_true_iff. intros [Hc Hr].
  rewrite (lower_plain_char c Hc). auto.
Qed.

Lemma lower_truthy (s : string) : Text.truthy (Text.lower s) = Text.truthy s.
Proof. destruct s; reflexivity. Qed.

(** Lower-casing makes no hyphen. *)
Lemma lower_char_hyphen (c : ascii) :
  Ascii.eqb (Text.lower_char c) "-" = Ascii.eqb c "-".
Proof. destruct c as [[] [] [] [] [] [] [] []]; reflexivity. Qed.

Lemma lower_has_hyphen (s : string) :
  NameSpec.has_hyphen (Text.lower s) = NameSpec.has_hyphen s.
Proof.
  unfold NameSpec.has_hyphen. f_equal.
  induction s as [|c r IH]; simpl; [reflexivity|].
  rewrite lower_char_hyphen, IH. reflexivity.
Qed.

(** In a name without hyphens, every hyphen of the result stands for a
    run, and no two of them are neighbours. *)
Lemma re_sub_class_no_double_hyphen (cls : ascii -> bool) (s : string) :
  NameSpec.has_hyphen s = false ->
  NameSpec.has_double_hyphen (Text.re_sub_class cls "-" false s) = false
  /\ NameSpec.has_double_hyphen
       (String "-" (Text.re_sub_class cls "-" true s)) = false
  /\ NameSpec.has_double_hyphen (Text.re_sub_class cls "-" true s) = false.
Proof.
  unfold NameSpec.has_hyphen. rewrite negb_false_iff.
  induction s as [|c r IH]; simpl; [auto|].
  rewrite andb_true_iff, negb_true_iff. intros [Hc Hr].
  destruct (IH Hr) as (IH1 & IH2 & IH3).
  destruct (cls c); simpl; [auto|].
  rewrite Hc. simpl.
  destruct (Text.re_sub_class cls "-" false r); auto.
Qed.

Lemma sanitized_no_double_hyphen (dir : string) :
  NameSpec.has_hyphen dir = false ->
  NameSpec.has_double_hyphen
    (Text.re_sub_plus space_or_underscore "-" (Text.lower dir)) = false.
Proof.
  intros H. apply re_sub_class_no_double_hyphen.
  rewrite lower_has_hyphen. exact H.
Qed.

(** C4, the claim as it is written fails: a dot in the directory name is
    kept, and the name then does not match the pattern. *)
Lemma get_project_name_pattern_counterexample :
  get_project_name "my.project" "acme" = "acme-my.project"
  /\ NameSpec.matches_name_pattern "acme"
       (get_project_name "my.project" "acme") = false.
Proof. split; reflexivity. Qed.

(** C4, amended: for every prefix and every directory name,
    [get_project_name] is the prefix, a hyphen, and the directory name
    lower-cased with every maximal run of white space or underscores
    replaced by one hyphen; no two hyphens that come from runs are
    neighbours; and the result matches [^<escaped prefix>-[a-z0-9-]+$]
    whenever the directory name is not empty and is made of ASCII letters,
    digits, hyphens, white space and underscores only. *)
Theorem get_project_name_derive (prefix dir : string) :
  get_project_name dir prefix = NameSpec.derive prefix dir
  /\ (let marked :=
        NameSpec.sub_marked space_or_underscore false (Text.lower dir) in
      get_project_name dir prefix = prefix +:+ "-" +:+ NameSpec.unmark marked
      /\ NameSpec.no_adjacent_marks marked = true)
  /\ (Text.truthy dir = true ->
      NameSpec.all_chars NameSpec.plain_char dir = true ->
      NameSpec.matches_name_pattern prefix (get_project_name dir prefix) = true).
Proof.
  unfold get_project_name, NameSpec.derive. split; [|split; [split|]].
  - rewrite replace_maximal_runs_scan. reflexivity.
  - rewrite unmark_sub_marked. reflexivity.
  - apply sub_marked_no_adjacent.
  - intros Hne Hplain. unfold NameSpec.matches_name_pattern.
    rewrite <- append_assoc, strip_prefix_app.
    unfold Text.re_sub_plus. apply andb_true_iff. split.
    + apply re_sub_class_nonempty. rewrite lower_truthy. exact Hne.
    + apply re_sub_class_all_chars; [reflexivity|].
      apply lower_all_plain. exact Hplain.
Qed.

Lemma get_project_name_derive_witness :
  Text.truthy "My Project_2" = true
  /\ NameSpec.all_chars NameSpec.plain_char "My Project_2" = true
  /\ NameSpec.matches_name_pattern "acme"
       (get_project_name "My Project_2" "acme") = true.
Proof.
  split; [reflexivity|]. split; [reflexivity|].
  apply (get_project_name_derive "acme" "My Project_2"); reflexivity.
Defined.

(** ** The file system operations *)

Lemma mkdir_chain_raises_OSError above path fs e fs' :
  FS.mkdir_chain above path fs = (Some e, fs') -> is_OSError e = true.
Proof.
  revert fs. induction above as [|d rest IH]; intros fs; simpl.
  - destruct (fs !! path) as [[|c]|]; intros [= <- _]; reflexivity.
  - destruct (fs !! d) as [[|c]|]; eauto. intros [= <- _]; reflexivity.
Qed.

Lemma makedirs_raises_OSError path fs e fs' :
  FS.makedirs path fs = (Some e, fs') -> is_OSError e = true.
Proof. apply mkdir_chain_raises_OSError. Qed.

Lemma write_text_raises_OSError path content fs e fs' :
  FS.write_text path content fs = (Some e, fs') -> is_OSError e = true.
Proof.
  unfold FS.write_text.
  destruct (Path.parent path) as [d|]; [destruct (fs !! d) as [[|c]|]|];
    try (intros [= <- _]; reflexivity);
    destruct (fs !! path) as [[|c']|]; intros [= <- _]; reflexivity.
Qed.

(** ** Rules for runs *)

Lemma bind_ret_r (m : M unit) (fs : gmap string node) :
  (m;; ret tt) fs = m fs.
Proof.
  unfold bind, ret. destruct (m fs) as [[[]|e] f t]; simpl; [|reflexivity].
  rewrite app_nil_r. reflexivity.
Qed.

Lemma trace_bind {A B} (m : M A) (f : A -> M B) (fs : gmap string node) :
  trace (bind m f fs)
  = trace (m fs) ++ match res (m fs) with
                    | Ok a => trace (f a (files (m fs)))
                    | Raise _ => []
                    end.
Proof. unfold bind. destruct (res (m fs)); simpl; [|rewrite app_nil_r]; reflexivity. Qed.

Section Rules.

Context {A : Type} (P : result A -> list event -> Prop).
Variables (pre : list event) (fs : gmap string node).

Lemma holds_ret (a : A) : P (Ok a) pre -> holds P pre (ret a) fs.
Proof. unfold holds, ret. simpl. rewrite app_nil_r. auto. Qed.

Lemma holds_raise (e : exn) : P (Raise e) pre -> holds P pre (raise e) fs.
Proof. unfold holds, raise. simpl. rewrite app_nil_r. auto. Qed.

Lemma holds_bind {B} (m : M B) (f : B -> M A) :
  holds (fun r t => match r with
                    | Ok b => forall fs', holds P t (f b) fs'
                    | Raise e => P (Raise e) t
                    end) pre m fs ->
  holds P pre (bind m f) fs.
Proof.
  unfold holds, bind. destruct (res (m fs)); simpl; [|auto].
  intros H. rewrite app_assoc. apply H.
Qed.

Lemma holds_try (body : M A) (handler : list string * Z -> M A) :
  holds (fun r t => match r with
                    | Raise (CalledProcessError cmd rc) =>
                        forall fs', holds P t (handler (cmd, rc)) fs'
                    | _ => P r t
                    end) pre body fs ->
  holds P pre (try_except_CalledProcessError body handler) fs.
Proof.
  unfold holds, try_except_CalledProcessError.
  destruct (res (body fs)) as [a|[]] eqn:E; simpl; rewrite ?E; auto.
  intros H. rewrite app_assoc. apply H.
Qed.

Lemma holds_if (b : bool) (m1 m2 : M A) :
  (b = true -> holds P pre m1 fs) ->
  (b = false -> holds P pre m2 fs) ->
  holds P pre (if b then m1 else m2) fs.
Proof. destruct b; auto. Qed.

End Rules.

Section UnitRules.

Variable P : result unit -> list event -> Prop.
Variables (pre : list event) (fs : gmap string node).

Lemma holds_print (line : string) :
  P (Ok tt) (pre ++ [EPrint line]) -> holds P pre (print line) fs.
Proof. unfold holds, print. auto. Qed.

Lemma holds_lift_fs op (ev : event) :
  (forall fs0 e fs', op fs0 = (Some e, fs') -> is_OSError e = true) ->
  (forall e, is_OSError e = true -> P (Raise e) pre) ->
  P (Ok tt) (pre ++ [ev]) ->
  holds P pre (lift_fs op ev) fs.
Proof.
  unfold holds, lift_fs. intros Hop Hraise Hok.
  destruct (op fs) as [[e|] fs'] eqn:E; simpl; [rewrite app_nil_r|]; eauto.
Qed.

Lemma holds_with_open_w (path : string) (chunks : list string) :
  (forall e, is_OSError e = true -> P (Raise e) pre) ->
  P (Ok tt) (pre ++ [EWrite path (String.concat "" chunks)]) ->
  holds P pre (with_open_w path chunks) fs.
Proof. apply holds_lift_fs. apply write_text_raises_OSError. Qed.

Lemma holds_os_makedirs (path : string) :
  (forall e, is_OSError e = true -> P (Raise e) pre) ->
  P (Ok tt) (pre ++ [EMakedirs path]) ->
  holds P pre (os_makedirs path) fs.
Proof. apply holds_lift_fs. apply makedirs_raises_OSError. Qed.

End UnitRules.

Lemma holds_subprocess_run (sh : list string -> outcome)
    (P : result string -> list event -> Prop)
    (pre : list event) (fs : gmap string node) (cmd : list string) :
  (sh cmd = NotFound ->
   P (Raise (FileNotFoundError (hd "" cmd))) (pre ++ [ERun cmd NotFound])) ->
  (forall rc out, sh cmd = Exited rc out -> rc <> 0%Z ->
   P (Raise (CalledProcessError cmd rc)) (pre ++ [ERun cmd (Exited rc out)])) ->
  (forall out, sh cmd = Exited 0 out ->
   P (Ok out) (pre ++ [ERun cmd (Exited 0 out)])) ->
  holds P pre (subprocess_run sh cmd) fs.
Proof.
  unfold holds, subprocess_run. intros Hnf Hfail Hok.
  destruct (sh cmd) as [|rc out] eqn:E; simpl; [auto|].
  destruct (Z.eqb_spec rc 0) as [->|Hne]; auto.
Qed.

(** One step of a run: the rule of the computation in front. *)
Ltac run_step :=
  lazymatch goal with
  | |- forall _ : gmap string node, _ => intros ?
  | |- holds _ _ (bind _ _) _ => apply holds_bind
  | |- holds _ _ (print _) _ => apply holds_print
  | |- holds _ _ (ret _) _ => apply holds_ret
  | |- holds _ _ (sys_exit _) _ => apply holds_raise
  | |- holds _ _ (raise _) _ => apply holds_raise
  | |- holds _ _ (subprocess_run _ _) _ =>
      apply holds_subprocess_run;
      [intros ?Hsh | intros ?rc ?out ?Hsh ?Hrc | intros ?out ?Hsh]
  | |- holds _ _ (with_open_w _ _) _ =>
      apply holds_with_open_w; [intros ?e ?He|]
  | |- holds _ _ (os_makedirs _) _ =>
      apply holds_os_makedirs; [intros ?e ?He|]
  | |- holds _ _ (try_except_CalledProcessError _ _) _ => apply holds_try
  | |- holds _ _ (if true then _ else _) _ => idtac
  | |- holds _ _ (if false then _ else _) _ => idtac
  | |- holds _ _ (if ?b then _ else _) _ =>
      first [is_var b; destruct b | destruct b eqn:?Hif]
  | |- holds _ _ (let x := ?v in _) _ => cbv zeta
  end; cbv beta iota.

Ltac run_all := repeat run_step.

(** ** Closing the cases of a run *)

Ltac pick_identity :=
  match goal with
  | |- context [EPrint ("   git remote add origin https://github.com/"
                        +:+ ?u +:+ _)] => exists u
  end.

Ltac use_tests :=
  repeat match goal with
         | H : String.eqb _ _ = _ |- _ => rewrite H
         end.

Ltac by_trace :=
  unfold ends_with; use_tests; simpl; rewrite ?String.eqb_refl; simpl;
  try reflexivity.

(** The run stopped before the command the hypothesis speaks of. *)
Ltac not_reached :=
  unfold is_remote_step; repeat (simpl; rewrite ?andb_false_r);
  intros; discriminate.

(** The visibility that [main] hands to [setup_git] is a valid one. *)
Lemma main_visibility_valid (argv : list string) :
  negb (Text.mem (if Text.mem "--public" argv then "public" else "private")
          ["public"; "private"]) = false.
Proof. destruct (Text.mem "--public" argv); reflexivity. Qed.

(** The texts of the files that do not depend on the account identity
    play no part in what follows: they are made variables. *)
Ltac hide_contents :=
  repeat match goal with
         | |- context [with_open_w _ (?c :: ?cs)] =>
             let chunks := fresh "chunks" in
             generalize (c :: cs); intros chunks
         end.

Ltac unfold_script :=
  unfold main, setup_git, get_github_username, create_project_structure,
    setup_virtual_environment;
  rewrite ?main_visibility_valid;
  hide_contents.

(** ** RepositoryInitializer: failures of the remote step *)

Section RemoteFailures.

Variable sh : list string -> outcome.
Variable os_name : string.
Variable current_folder : string.
Variable str_CalledProcessError : list string * Z -> string.

Local Abbreviation script :=
  (main sh os_name current_folder str_CalledProcessError).
Local Abbreviation name_of argv :=
  (get_project_name current_folder (nth 1 argv "")).

Lemma setup_git_create_failure project_name use_github visibility fs :
  holds (fun r t =>
           exited_nonzero is_repo_create t = true ->
           r = Ok tt
           /\ exists u,
               count_block (manual_instructions u project_name) (printed t)
               = 1%nat)
        [] (setup_git sh str_CalledProcessError project_name use_github
              visibility) fs.
Proof.
  unfold_script. run_all; try not_reached.
  all: intros _; split; [reflexivity|]; pick_identity; by_trace.
Qed.

Lemma main_create_failure (argv : list string) (fs : gmap string node) :
  holds (fun r t =>
           exited_nonzero is_repo_create t = true ->
           r = Ok tt
           /\ exists u,
               count_block (manual_instructions u (name_of argv)) (printed t)
               = 1%nat
               /\ ends_with (manual_instructions u (name_of argv)
                             ++ closing_lines os_name (name_of argv))
                    (printed t) = true)
        [] (script argv) fs.
Proof.
  unfold closing_lines. unfold_script.
  run_all; try not_reached.
  all: intros _; split; [reflexivity|]; pick_identity; split; by_trace.
Qed.

(** C3: in every run in which [gh repo create] ends with a return code
    other than zero, [setup_git] returns normally after it has printed the
    manual instructions, once; and [main] returns normally, with exit
    status 0, the output ending with the instructions, the last line of
    [setup_git], the success message and the activation reminder. *)
Theorem create_failure_not_fatal :
  (forall project_name use_github visibility fs,
     let r := setup_git sh str_CalledProcessError project_name use_github
                visibility fs in
     exited_nonzero is_repo_create (trace r) = true ->
     res r = Ok tt
     /\ exists u, count_block (manual_instructions u project_name)
                    (printed (trace r)) = 1%nat)
  /\ (forall argv fs,
        let r := script argv fs in
        exited_nonzero is_repo_create (trace r) = true ->
        res r = Ok tt /\ exit_status r = 0%Z
        /\ exists u,
            count_block (manual_instructions u (name_of argv))
              (printed (trace r)) = 1%nat
            /\ ends_with (manual_instructions u (name_of argv)
                          ++ closing_lines os_name (name_of argv))
                 (printed (trace r)) = true).
Proof.
  split.
  - intros pn ug v fs. apply (setup_git_create_failure pn ug v fs).
  - intros argv fs r H. subst r.
    destruct (main_create_failure argv fs H) as [Hres Hprinted].
    split; [exact Hres|]. split; [|exact Hprinted].
    unfold exit_status. rewrite Hres. reflexivity.
Qed.

Lemma main_push_failure (argv : list string) (fs : gmap string node) :
  holds (fun r t =>
           exited_nonzero is_push t = true ->
           r = Ok tt
           /\ succeeded is_repo_create t = true
           /\ exists u rc,
               rc <> 0%Z
               /\ count_block (manual_instructions u (name_of argv))
                    (printed t) = 1%nat
               /\ ends_with
                    (["Error creating GitHub repository: "
                      +:+ str_CalledProcessError (push_command, rc);
                      "You can manually create and connect to GitHub repository:"]
                     ++ manual_instructions u (name_of argv)
                     ++ closing_lines os_name (name_of argv))
                    (printed t) = true)
        [] (script argv) fs.
Proof.
  unfold closing_lines, push_command. unfold_script.
  run_all; try not_reached.
  all: intros _; split; [reflexivity|]; split; [reflexivity|].
  all: pick_identity;
    match goal with
    | Hrc : ?rc <> 0%Z |- context [str_CalledProcessError (_, ?rc)] =>
        exists rc; split; [exact Hrc|]
    end.
  all: split; by_trace.
Qed.

(** C1, amended: in every run in which [git push] ends with a return code
    other than zero (the creation of the remote repository then has
    succeeded), the failure is caught by the handler that also serves the
    creation: [setup_git] prints the error line and the manual
    instructions, once, and returns normally; [main] goes on to the success
    message and the exit status is 0. *)
Theorem push_failure_not_fatal (argv : list string) (fs : gmap string node) :
  let r := script argv fs in
  exited_nonzero is_push (trace r) = true ->
  res r = Ok tt /\ exit_status r = 0%Z
  /\ succeeded is_repo_create (trace r) = true
  /\ exists u rc,
      rc <> 0%Z
      /\ count_block (manual_instructions u (name_of argv))
           (printed (trace r)) = 1%nat
      /\ ends_with
           (["Error creating GitHub repository: "
             +:+ str_CalledProcessError (push_command, rc);
             "You can manually create and connect to GitHub repository:"]
            ++ manual_instructions u (name_of argv)
            ++ closing_lines os_name (name_of argv))
           (printed (trace r)) = true.
Proof.
  intros r H. subst r.
  destruct (main_push_failure argv fs H) as (Hres & Hcreated & Hprinted).
  split; [exact Hres|]. split; [|split; [exact Hcreated|exact Hprinted]].
  unfold exit_status. rewrite Hres. reflexivity.
Qed.

End RemoteFailures.

Lemma create_failure_not_fatal_witness :
  exited_nonzero is_repo_create
    (trace (main Sample.sh_create_fails "posix" "my_project" Sample.str_error
              Sample.argv_acme ∅)) = true
  /\ res (main Sample.sh_create_fails "posix" "my_project" Sample.str_error
            Sample.argv_acme ∅) = Ok tt.
Proof.
  split; [vm_compute; reflexivity|].
  apply (proj2 (create_failure_not_fatal Sample.sh_create_fails "posix"
                  "my_project" Sample.str_error) Sample.argv_acme ∅).
  vm_compute; reflexivity.
Defined.

(** C1, the claim as it is written fails: with a [git push] that ends
    with return code 1 after a creation that went well, the run comes to
    its end normally and the manual instructions are printed. *)
Lemma push_failure_is_fatal_counterexample :
  ~ push_failure_is_fatal
      (main Sample.sh_push_fails "posix" "my_project" Sample.str_error
         Sample.argv_acme ∅)
      "acme-my-project".
Proof.
  intros H. destruct H as [[e He] _]; [vm_compute; reflexivity ..|].
  vm_compute in He. discriminate He.
Qed.

Lemma push_failure_not_fatal_witness :
  exited_nonzero is_push
    (trace (main Sample.sh_push_fails "posix" "my_project" Sample.str_error
              Sample.argv_acme ∅)) = true
  /\ exit_status (main Sample.sh_push_fails "posix" "my_project"
                    Sample.str_error Sample.argv_acme ∅) = 0%Z.
Proof.
  split; [vm_compute; reflexivity|].
  apply (push_failure_not_fatal Sample.sh_push_fails "posix" "my_project"
           Sample.str_error Sample.argv_acme ∅).
  vm_compute; reflexivity.
Defined.

(** ** RepositoryInitializer without a remote host *)

Lemma concat_cons (x : string) (l : list string) :
  String.concat "" (x :: l) = x +:+ String.concat "" l.
Proof.
  destruct l as [|y l]; simpl; [|reflexivity].
  induction x as [|c x IH]; simpl; [reflexivity|]. rewrite <- IH. reflexivity.
Qed.

Lemma contains_concat (l1 : list string) (x : string) (l2 : list string) :
  contains (String.concat "" (l1 ++ x :: l2)) x.
Proof.
  exists (String.concat "" l1), (String.concat "" l2).
  induction l1 as [|y l1 IH].
  - apply concat_cons.
  - change ((y :: l1) ++ x :: l2) with (y :: (l1 ++ x :: l2)).
    rewrite !concat_cons, IH, append_assoc. reflexivity.
Qed.

Ltac by_commands := repeat (simpl; rewrite ?andb_false_r); reflexivity.

Section NoRemoteHost.

Variable sh : list string -> outcome.
Variable os_name : string.
Variable current_folder : string.
Variable str_CalledProcessError : list string * Z -> string.

Local Abbreviation script :=
  (main sh os_name current_folder str_CalledProcessError).
Local Abbreviation name_of argv :=
  (get_project_name current_folder (nth 1 argv "")).

Lemma setup_git_without_github project_name visibility fs :
  holds (fun r t =>
           forallb (fun cmd => negb (is_gh cmd)) (commands t) = true
           /\ Forall (fun text =>
                        contains text (clone_line "yourusername" project_name))
                (written "README.md" t)
           /\ Forall (fun line =>
                        line = "   git remote add origin https://github.com/"
                               +:+ "yourusername" +:+ "/" +:+ project_name
                               +:+ ".git")
                (List.filter is_remote_add (printed t))
           /\ (r = Ok tt ->
               length (written "README.md" t) = 1%nat
               /\ count_block (manual_instructions "yourusername" project_name)
                    (printed t) = 1%nat))
        [] (setup_git sh str_CalledProcessError project_name false visibility)
        fs.
Proof.
  unfold_script. run_all.
  all: split; [by_commands|split; [|split]].
  all: try (intros H; first [discriminate H | split; by_trace]).
  all: try solve [simpl; repeat constructor].
  all: cbv [written app String.eqb Ascii.eqb Bool.eqb andb].
  all: constructor; [|constructor].
  all: match goal with
       | |- contains (String.concat "" ?l) ?x =>
           apply (contains_concat (firstn 6 l) x (skipn 7 l))
       end.
Qed.

Lemma main_without_github (argv : list string) (fs : gmap string node) :
  Text.mem "--no-github" argv = true ->
  holds (fun r t =>
           forallb (fun cmd => negb (is_repo_create cmd || is_push cmd))
             (commands t) = true
           /\ (count_block (manual_instructions "yourusername" (name_of argv))
                 (printed t) <= 1)%nat
           /\ (count_block [instructions_heading (name_of argv)] (printed t)
               <= 1)%nat
           /\ (r = Ok tt ->
               count_block (manual_instructions "yourusername" (name_of argv))
                 (printed t) = 1%nat
               /\ count_block [instructions_heading (name_of argv)]
                    (printed t) = 1%nat))
        [] (script argv) fs.
Proof.
  intros Hflag. unfold instructions_heading. unfold_script.
  rewrite Hflag. change (negb true) with false.
  run_all.
  all: split; [by_commands|split; [|split]].
  all: try (intros H; first [discriminate H | split; by_trace]).
  all: by_trace; lia.
Qed.

End NoRemoteHost.

(** ** Orchestrator *)

Lemma bind_ret_l {A B} (a : A) (f : A -> M B) (fs : gmap string node) :
  bind (ret a) f fs = f a fs.
Proof. unfold bind, ret. simpl. destruct (f a fs); reflexivity. Qed.

Ltac by_status :=
  match goal with
  | |- _ <-> _ => split; intros H; first [discriminate H | reflexivity]
  | He : is_OSError ?e = true |- _ =>
      destruct e; try discriminate He; simpl;
      split; intros H; discriminate H
  end.

Section Orchestrator.

Variable sh : list string -> outcome.
Variable os_name : string.
Variable current_folder : string.
Variable str_CalledProcessError : list string * Z -> string.

Local Abbreviation script :=
  (main sh os_name current_folder str_CalledProcessError).

(** What [main] does once the prefix is there, for a project name and the
    two options. *)
Local Abbreviation setup project_name use_github visibility :=
  (print ("Setting up Python project: " +:+ project_name);;
   setup_virtual_environment sh os_name project_name;;
   create_project_structure project_name;;
   setup_git sh str_CalledProcessError project_name use_github visibility;;
   print (nl +:+ "Project setup complete for " +:+ project_name +:+ "!");;
   print "Don't forget to activate your virtual environment:";;
   (if String.eqb os_name "nt" then print ".venv\Scripts\activate"
    else print "source .venv/bin/activate")).

Lemma main_usage (argv : list string) (fs : gmap string node) :
  (length argv < 2)%nat ->
  script argv fs
  = Run (Raise (SystemExit 1)) fs
      [EPrint "Error: Missing prefix argument.";
       EPrint "Usage: ./setup_python_project.py <prefix> [--no-github] [--public]"].
Proof.
  intros H. apply Nat.ltb_lt in H. unfold main. rewrite H. reflexivity.
Qed.

Lemma main_exit_status (argv : list string) (fs : gmap string node) :
  holds (fun r t =>
           (status_of r = 0%Z <-> r = Ok tt)
           /\ (exited_nonzero is_remote_step t = true -> r = Ok tt))
        [] (script argv) fs.
Proof.
  unfold_script. run_all.
  all: split; [simpl; by_status|first [not_reached | intros _; reflexivity]].
Qed.

(** C7: without an argument after the program name, [main] prints the
    usage message and exits with status 1, and nothing else happens: no
    other line, no command, no file, the working tree as it was. With a
    prefix, the exit status is 0 exactly when [main] comes to its end, and
    it does so, with status 0, in every run in which the presence check,
    the creation or the push of the remote step ends with a return code
    other than zero. *)
Theorem exit_status_of_main (argv : list string) (fs : gmap string node) :
  ((length argv < 2)%nat ->
   script argv fs
   = Run (Raise (SystemExit 1)) fs
       [EPrint "Error: Missing prefix argument.";
        EPrint "Usage: ./setup_python_project.py <prefix> [--no-github] [--public]"]
   /\ exit_status (script argv fs) = 1%Z)
  /\ ((2 <= length argv)%nat ->
      (exit_status (script argv fs) = 0%Z <-> res (script argv fs) = Ok tt)
      /\ (exited_nonzero is_remote_step (trace (script argv fs)) = true ->
          res (script argv fs) = Ok tt
          /\ exit_status (script argv fs) = 0%Z)).
Proof.
  split.
  - intros H. rewrite (main_usage argv fs H). split; reflexivity.
  - intros _. destruct (main_exit_status argv fs) as [Hzero Hdegraded].
    split; [exact Hzero|]. intros H. specialize (Hdegraded H).
    split; [exact Hdegraded|]. apply Hzero. exact Hdegraded.
Qed.

(** C9: when the first argument after the program name is [--no-github]
    or [--public], [main] takes it as the prefix: the project name is the
    flag, a hyphen and the folder name made plain; and the same argument
    still counts as the flag, so that [setup_git] is run without the remote
    host, respectively with public visibility, whatever the other
    arguments are. *)
Theorem first_argument_flag_is_prefix (prog : string) (rest : list string)
    (fs : gmap string node) :
  let folder :=
    Text.re_sub_plus space_or_underscore "-" (Text.lower current_folder) in
  (script (prog :: "--no-github" :: rest) fs
   = setup ("--no-github" +:+ "-" +:+ folder) false
       (if Text.mem "--public" (prog :: rest) then "public" else "private") fs)
  /\ (script (prog :: "--public" :: rest) fs
      = setup ("--public" +:+ "-" +:+ folder)
          (negb (Text.mem "--no-github" (prog :: rest))) "public" fs)
  /\ hd_error (printed (trace (script (prog :: "--no-github" :: rest) fs)))
     = Some ("Setting up Python project: --no-github-" +:+ folder)
  /\ hd_error (printed (trace (script (prog :: "--public" :: rest) fs)))
     = Some ("Setting up Python project: --public-" +:+ folder).
Proof.
  intros folder.
  assert (Hng : script (prog :: "--no-github" :: rest) fs
   = setup ("--no-github" +:+ "-" +:+ folder) false
       (if Text.mem "--public" (prog :: rest) then "public" else "private") fs).
  { unfold main. cbn [length Nat.ltb Nat.leb]. rewrite bind_ret_l.
    unfold get_project_name. cbn [nth Text.mem]. fold folder.
    change ("--no-github" =? "--no-github") with true.
    change ("--no-github" =? "--public") with false.
    rewrite orb_true_r, orb_false_l. reflexivity. }
  assert (Hpub : script (prog :: "--public" :: rest) fs
      = setup ("--public" +:+ "-" +:+ folder)
          (negb (Text.mem "--no-github" (prog :: rest))) "public" fs).
  { unfold main. cbn [length Nat.ltb Nat.leb]. rewrite bind_ret_l.
    unfold get_project_name. cbn [nth Text.mem]. fold folder.
    change ("--public" =? "--public") with true.
    change ("--public" =? "--no-github") with false.
    rewrite orb_true_r, orb_false_l. reflexivity. }
  split; [exact Hng|]. split; [exact Hpub|].
  rewrite Hng, Hpub, !trace_bind. split; reflexivity.
Qed.

End Orchestrator.

(** ** The claims on runs without a remote host *)

(** C5, the claim as it is written fails: when [git commit] ends with
    return code 128 the run stops there, and the instructions have not been
    printed. *)

Lemma no_remote_and_instructions_once_counterexample :
  ~ no_remote_and_instructions_once
      (main Sample.sh_commit_fails "posix" "my_project" Sample.str_error
         Sample.argv_acme_no_github ∅)
      "acme-my-project".
Proof. intros [_ H]. vm_compute in H. discriminate H. Qed.

(** C5, amended: in every run with [--no-github] among the arguments, no
    [gh repo create] and no [git push] is attempted and the manual
    instructions are printed at most once; they are printed exactly once
    in every such run that [main] brings to its end. *)

Theorem no_github_instructions_once
    (sh : list string -> outcome) (os_name current_folder : string)
    (str_CalledProcessError : list string * Z -> string)
    (argv : list string) (fs : gmap string node) :
  Text.mem "--no-github" argv = true ->
  let r := main sh os_name current_folder str_CalledProcessError argv fs in
  let project_name := get_project_name current_folder (nth 1 argv "") in
  forallb (fun cmd => negb (is_repo_create cmd || is_push cmd))
    (commands (trace r)) = true
  /\ (count_block (manual_instructions "yourusername" project_name)
        (printed (trace r)) <= 1)%nat
  /\ (count_block [instructions_heading project_name] (printed (trace r))
      <= 1)%nat
  /\ (res r = Ok tt ->
      count_block (manual_instructions "yourusername" project_name)
        (printed (trace r)) = 1%nat
      /\ count_block [instructions_heading project_name] (printed (trace r))
         = 1%nat).
Proof.
  intros H.
  exact (main_without_github sh os_name current_folder str_CalledProcessError
           argv fs H).
Qed.


Lemma no_github_instructions_once_witness :
  Text.mem "--no-github" Sample.argv_acme_no_github = true
  /\ count_block (manual_instructions "yourusername" "acme-my-project")
       (printed (trace (main Sample.sh_all_ok "posix" "my_project"
                          Sample.str_error Sample.argv_acme_no_github ∅)))
     = 1%nat.
Proof.
  split; [reflexivity|].
  assert (Hres : res (main Sample.sh_all_ok "posix" "my_project"
                        Sample.str_error Sample.argv_acme_no_github ∅)
                 = Ok tt) by (vm_compute; reflexivity).
  pose proof (no_github_instructions_once Sample.sh_all_ok "posix"
                "my_project" Sample.str_error Sample.argv_acme_no_github ∅
                eq_refl) as H.
  cbv zeta in H. destruct H as (_ & _ & _ & H).
  destruct (H Hres) as [Hcount _]. exact Hcount.
Defined.

(** C10: with [use_github] false, [setup_git] hands no [gh] command to the
    system, whatever happens: the account is not asked for. What it
    writes to the readme clones from the account [yourusername], and every
    add-remote line it prints names that account; when [setup_git] comes
    to its end the readme has been written and the instructions for
    [yourusername] have been printed once. *)

Theorem setup_git_without_github_placeholder
    (sh : list string -> outcome)
    (str_CalledProcessError : list string * Z -> string)
    (project_name visibility : string) (fs : gmap string node) :
  let r := setup_git sh str_CalledProcessError project_name false visibility
             fs in
  forallb (fun cmd => negb (is_gh cmd)) (commands (trace r)) = true
  /\ Forall (fun text =>
               contains text (clone_line "yourusername" project_name))
       (written "README.md" (trace r))
  /\ Forall (fun line =>
               line = "   git remote add origin https://github.com/"
                      +:+ "yourusername" +:+ "/" +:+ project_name +:+ ".git")
       (List.filter is_remote_add (printed (trace r)))
  /\ (res r = Ok tt ->
      length (written "README.md" (trace r)) = 1%nat
      /\ count_block (manual_instructions "yourusername" project_name)
           (printed (trace r)) = 1%nat).
Proof.
  exact (setup_git_without_github sh str_CalledProcessError project_name
           visibility fs).
Qed.


Lemma setup_git_without_github_placeholder_witness :
  res (setup_git Sample.sh_all_ok Sample.str_error "acme-my-project" false
         "private" ∅) = Ok tt
  /\ count_block (manual_instructions "yourusername" "acme-my-project")
       (printed (trace (setup_git Sample.sh_all_ok Sample.str_error
                          "acme-my-project" false "private" ∅))) = 1%nat.
Proof.
  assert (Hres : res (setup_git Sample.sh_all_ok Sample.str_error
                        "acme-my-project" false "private" ∅) = Ok tt)
    by (vm_compute; reflexivity).
  split; [exact Hres|].
  pose proof (setup_git_without_github_placeholder Sample.sh_all_ok
                Sample.str_error "acme-my-project" "private" ∅) as H.
  cbv zeta in H. destruct H as (_ & _ & _ & H).
  destruct (H Hres) as [_ Hcount]. exact Hcount.
Defined.


(** ** Orchestrator: a run without a prefix, a run that degrades *)

Lemma exit_status_of_main_witness :
  (length ["setup_python_project.py"] < 2)%nat
  /\ exit_status (main Sample.sh_all_ok "posix" "my_project" Sample.str_error
                    ["setup_python_project.py"] ∅) = 1%Z
  /\ (2 <= length Sample.argv_acme)%nat
  /\ exit_status (main Sample.sh_create_fails "posix" "my_project"
                    Sample.str_error Sample.argv_acme ∅) = 0%Z.
Proof.
  assert (H1 : (length ["setup_python_project.py"] < 2)%nat) by (simpl; lia).
  assert (H2 : (2 <= length Sample.argv_acme)%nat) by (simpl; lia).
  assert (H3 : exited_nonzero is_remote_step
                 (trace (main Sample.sh_create_fails "posix" "my_project"
                           Sample.str_error Sample.argv_acme ∅)) = true)
    by (vm_compute; reflexivity).
  split; [exact H1|]. split; [|split; [exact H2|]].
  - destruct (exit_status_of_main Sample.sh_all_ok "posix" "my_project"
                Sample.str_error ["setup_python_project.py"] ∅) as [H _].
    destruct (H H1) as [_ Hstatus]. exact Hstatus.
  - destruct (exit_status_of_main Sample.sh_create_fails "posix"
                "my_project" Sample.str_error Sample.argv_acme ∅) as [_ H].
    destruct (H H2) as [_ Hdegraded].
    destruct (Hdegraded H3) as [_ Hstatus]. exact Hstatus.
Defined.

(** ** The hosting command line tool is absent *)

Section HostingCliAbsent.

Variable sh : list string -> outcome.
Variable str_CalledProcessError : list string * Z -> string.

(** A missing [gh] makes [subprocess.run] raise [FileNotFoundError], which
    the handler of [get_github_username] does not catch. *)

Lemma get_github_username_absent (fs : gmap string node) :
  sh ["gh"; "api"; "user"; "--jq"; ".login"] = NotFound ->
  get_github_username sh fs
  = Run (Raise (FileNotFoundError "gh")) fs
      [ERun ["gh"; "api"; "user"; "--jq"; ".login"] NotFound].
Proof.
  intros H. unfold get_github_username, try_except_CalledProcessError, bind,
    subprocess_run. rewrite H. reflexivity.
Qed.


Lemma setup_git_identity_absent project_name visibility fs :
  sh ["gh"; "api"; "user"; "--jq"; ".login"] = NotFound ->
  holds (fun r t =>
           r = Raise (FileNotFoundError "gh")
           /\ t = [EPrint "Setting up Git repository...";
                   ERun ["gh"; "api"; "user"; "--jq"; ".login"] NotFound])
        []
        (setup_git sh str_CalledProcessError project_name true visibility) fs.
Proof.
  intros H. unfold_script. repeat (run_step; try congruence).
  split; reflexivity.
Qed.

(** The handler around the presence check does not catch it either. *)

Lemma setup_git_presence_check_absent project_name visibility fs :
  sh ["gh"; "--version"] = NotFound ->
  holds (fun r t => r <> Ok tt) []
    (setup_git sh str_CalledProcessError project_name true visibility) fs.
Proof.
  intros H. unfold_script. repeat (run_step; try congruence).
  all: discriminate.
Qed.

End HostingCliAbsent.

(** C2, the code against the claim: on a host without [gh], a run with
    the remote host enabled stops in [get_github_username] with an uncaught
    [FileNotFoundError]; the exit status is 1, [Setting up Git
    repository...] is the last line printed and no instructions are
    printed. *)

Theorem hosting_cli_absent_is_fatal :
  let r := main Sample.sh_no_gh "posix" "my_project" Sample.str_error
             Sample.argv_acme ∅ in
  get_github_username Sample.sh_no_gh ∅
  = Run (Raise (FileNotFoundError "gh")) ∅
      [ERun ["gh"; "api"; "user"; "--jq"; ".login"] NotFound]
  /\ res r = Raise (FileNotFoundError "gh")
  /\ exit_status r = 1%Z
  /\ last (printed (trace r)) = Some "Setting up Git repository..."
  /\ count_block [instructions_heading "acme-my-project"] (printed (trace r))
     = 0%nat.
Proof. vm_compute. repeat split. Qed.

(** ** RepositoryInitializer: a visibility that is not known *)

Lemma commands_app (t1 t2 : list event) :
  commands (t1 ++ t2) = commands t1 ++ commands t2.
Proof.
  induction t1 as [|[] t1 IH]; simpl; rewrite ?IH; reflexivity.
Qed.

Section Relating.

Context {A B : Type}.

Lemma same_outcome_bind (m : M A) (f g : A -> M B) (fs : gmap string node) :
  (forall a fs', same_outcome (f a fs') (g a fs')) ->
  same_outcome (bind m f fs) (bind m g fs).
Proof.
  intros H. unfold same_outcome, bind.
  destruct (res (m fs)) as [a|e]; simpl; [|auto].
  destruct (H a (files (m fs))) as (Hres & Hfiles & Hcmds).
  rewrite !commands_app, Hres, Hfiles, Hcmds. auto.
Qed.

Lemma line_inserted_bind (w : string) (m : M A) (f g : A -> M B)
    (fs : gmap string node) :
  (exists a, res (m fs) = Ok a) ->
  (forall a fs', line_inserted w (f a fs') (g a fs')) ->
  line_inserted w (bind m f fs) (bind m g fs).
Proof.
  intros [a Ha] H. unfold line_inserted, bind. rewrite Ha. simpl.
  destruct (H a (files (m fs))) as (pre & post & H1 & H2).
  exists (trace (m fs) ++ pre), post. rewrite H1, H2, !app_assoc. auto.
Qed.

Lemma same_outcome_print_ret (w : string) (x : A) (k : A -> M B)
    (fs : gmap string node) :
  same_outcome (bind (print w;; ret x) k fs) (bind (ret x) k fs).
Proof. unfold same_outcome, bind, print, ret. simpl. auto. Qed.

Lemma line_inserted_print_ret (w : string) (x : A) (k : A -> M B)
    (fs : gmap string node) :
  line_inserted w (bind (print w;; ret x) k fs) (bind (ret x) k fs).
Proof.
  unfold line_inserted, bind, print, ret. simpl.
  exists [], (trace (k x fs)). auto.
Qed.

End Relating.

Section Visibility.

Variable sh : list string -> outcome.
Variable str_CalledProcessError : list string * Z -> string.

(** The account identity is found, or replaced by the placeholder,
    whenever [gh] can be run at all. *)
Lemma identity_resolved (use_github : bool) (fs : gmap string node) :
  use_github = false
  \/ sh ["gh"; "api"; "user"; "--jq"; ".login"] <> NotFound ->
  exists u,
    res ((if use_github then get_github_username sh else ret "yourusername")
           fs) = Ok u.
Proof.
  intros H. destruct use_github; [|simpl; eauto].
  destruct H as [H|H]; [discriminate H|].
  unfold get_github_username, try_except_CalledProcessError, bind,
    subprocess_run, ret.
  destruct (sh ["gh"; "api"; "user"; "--jq"; ".login"]) as [|rc out];
    [congruence|].
  destruct (rc =? 0)%Z; simpl; eauto.
Qed.

(** C6: for every visibility other than [public] and [private], [setup_git]
    goes on as it does for [private]: it ends the same way, leaves the same
    working tree and hands the same commands to the system (so the
    repository is created with [--private]), and an invalid value is never
    the cause of a failure; once the account identity is resolved, its
    trace is that of the run for [private] with the warning printed in
    between. *)
Theorem invalid_visibility_coerced (project_name : string)
    (use_github : bool) (visibility : string) (fs : gmap string node) :
  Text.mem visibility ["public"; "private"] = false ->
  let r := setup_git sh str_CalledProcessError project_name use_github
             visibility fs in
  let r' := setup_git sh str_CalledProcessError project_name use_github
              "private" fs in
  same_outcome r r'
  /\ (use_github = false
      \/ sh ["gh"; "api"; "user"; "--jq"; ".login"] <> NotFound ->
      line_inserted (visibility_warning visibility) r r').
Proof.
  intros Hinvalid r r'. subst r r'. unfold setup_git, visibility_warning.
  rewrite Hinvalid.
  change (negb (Text.mem "private" ["public"; "private"])) with false.
  cbv iota. change (negb false) with true. cbv iota.
  split.
  - apply same_outcome_bind. intros _ fs1.
    apply same_outcome_bind. intros u fs2.
    apply same_outcome_print_ret.
  - intros Hid.
    apply line_inserted_bind; [unfold print; simpl; eauto|]. intros _ fs1.
    apply line_inserted_bind.
    2: { intros u fs2. apply line_inserted_print_ret. }
    apply identity_resolved. exact Hid.
Qed.

End Visibility.

Lemma invalid_visibility_coerced_witness :
  Text.mem "internal" ["public"; "private"] = false
  /\ Sample.sh_all_ok ["gh"; "api"; "user"; "--jq"; ".login"] <> NotFound
  /\ same_outcome
       (setup_git Sample.sh_all_ok Sample.str_error "acme-my-project" true
          "internal" ∅)
       (setup_git Sample.sh_all_ok Sample.str_error "acme-my-project" true
          "private" ∅)
  /\ line_inserted (visibility_warning "internal")
       (setup_git Sample.sh_all_ok Sample.str_error "acme-my-project" true
          "internal" ∅)
       (setup_git Sample.sh_all_ok Sample.str_error "acme-my-project" true
          "private" ∅).
Proof.
  assert (H1 : Text.mem "internal" ["public"; "private"] = false)
    by reflexivity.
  assert (H2 : Sample.sh_all_ok ["gh"; "api"; "user"; "--jq"; ".login"]
               <> NotFound) by (unfold Sample.sh_all_ok; discriminate).
  pose proof (invalid_visibility_coerced Sample.sh_all_ok Sample.str_error
                "acme-my-project" true "internal" ∅ H1) as H.
  cbv zeta in H. destruct H as [Hsame Hline].
  split; [exact H1|]. split; [exact H2|].
  split; [exact Hsame|exact (Hline (or_intror H2))].
Defined.

(** Where the validation is not reached: on a host without [gh],
    [setup_git] called with the remote host enabled stops in
    [get_github_username], before the visibility is looked at, as it does
    for a valid visibility (the uncaught [FileNotFoundError] of C2). For
    [internal] no warning is printed and nothing is written. *)
Theorem invalid_visibility_unwarned_without_gh :
  let r := setup_git Sample.sh_no_gh Sample.str_error "acme-my-project" true
             "internal" ∅ in
  Text.mem "internal" ["public"; "private"] = false
  /\ res r = Raise (FileNotFoundError "gh")
  /\ printed (trace r) = ["Setting up Git repository..."]
  /\ count_block [visibility_warning "internal"] (printed (trace r)) = 0%nat
  /\ files r = ∅.
Proof. vm_compute. repeat split. Qed.

(** ** LayoutGenerator: running it again *)

Section WorkingTree.

Implicit Types (fs : gmap string node) (path d : string).

(** [os.makedirs] only adds directories where there was nothing. *)
Lemma mkdir_chain_subseteq above path fs :
  fs ⊆ (FS.mkdir_chain above path fs).2.
Proof.
  revert fs. induction above as [|a rest IH]; intros fs; simpl.
  - destruct (fs !! path) as [[|c]|] eqn:E; simpl; try done.
    by apply insert_subseteq.
  - destruct (fs !! a) as [[|c]|] eqn:E; simpl; try done.
    etrans; [by apply insert_subseteq|apply IH].
Qed.

Lemma mkdir_chain_ok above path fs fs' :
  FS.mkdir_chain above path fs = (None, fs') ->
  forall d, In d (above ++ [path]) -> fs' !! d = Some Dir.
Proof.
  revert fs. induction above as [|a rest IH]; intros fs; simpl.
  - destruct (fs !! path) as [[|c]|] eqn:E; intros [= <-] d [<-|[]]; try done.
    apply lookup_insert_eq.
  - intros H d [<-|Hd].
    + pose proof (mkdir_chain_subseteq rest path (<[a := Dir]> fs)) as H1.
      pose proof (mkdir_chain_subseteq rest path fs) as H2.
      destruct (fs !! a) as [[|c]|] eqn:E; [| discriminate H |].
      * rewrite H in H2. simpl in H2. eapply lookup_weaken; eauto.
      * rewrite H in H1. simpl in H1.
        eapply lookup_weaken; [apply lookup_insert_eq|done].
    + destruct (fs !! a) as [[|c]|] eqn:E; [| discriminate H |]; eauto.
Qed.

Lemma mkdir_chain_settled above path fs :
  (forall d, In d (above ++ [path]) -> fs !! d = Some Dir) ->
  FS.mkdir_chain above path fs = (None, fs).
Proof.
  induction above as [|a rest IH]; simpl; intros H.
  - rewrite (H path); auto.
  - rewrite (H a); auto.
Qed.

Lemma mkdir_chain_fails_again above path fs e fs' :
  FS.mkdir_chain above path fs = (Some e, fs') ->
  FS.mkdir_chain above path fs' = (Some e, fs').
Proof.
  revert fs. induction above as [|a rest IH]; intros fs; simpl.
  - destruct (fs !! path) as [[|c]|] eqn:E; intros [= <- <-].
    rewrite E. reflexivity.
  - intros H.
    pose proof (mkdir_chain_subseteq rest path (<[a := Dir]> fs)) as H1.
    pose proof (mkdir_chain_subseteq rest path fs) as H2.
    destruct (fs !! a) as [[|c]|] eqn:E.
    + rewrite H in H2. simpl in H2.
      rewrite (lookup_weaken _ _ _ _ E H2). eauto.
    + injection H as <- <-. rewrite E. reflexivity.
    + rewrite H in H1. simpl in H1.
      rewrite (lookup_weaken _ _ _ _ (lookup_insert_eq fs a Dir) H1). eauto.
Qed.

Lemma write_text_ok path content fs fs' :
  FS.write_text path content fs = (None, fs') ->
  fs' = <[path := File content]> fs
  /\ fs !! path <> Some Dir
  /\ forall d, Path.parent path = Some d -> fs !! d = Some Dir.
Proof.
  unfold FS.write_text.
  destruct (Path.parent path) as [d|].
  - destruct (fs !! d) as [[|c]|] eqn:E; try discriminate.
    destruct (fs !! path) as [[|c]|]; intros [= <-]; repeat split;
      try discriminate; intros d' [= <-]; exact E.
  - destruct (fs !! path) as [[|c]|]; intros [= <-]; repeat split;
      try discriminate.
Qed.

Lemma write_text_raise path content fs e fs' :
  FS.write_text path content fs = (Some e, fs') -> fs' = fs.
Proof.
  unfold FS.write_text.
  destruct (Path.parent path) as [d|]; [destruct (fs !! d) as [[|c]|]|];
    try (intros [= _ <-]; reflexivity);
    destruct (fs !! path) as [[|c']|]; intros [= _ <-]; reflexivity.
Qed.

Lemma write_text_settled path content fs :
  fs !! path = Some (File content) ->
  (forall d, Path.parent path = Some d -> fs !! d = Some Dir) ->
  FS.write_text path content fs = (None, fs).
Proof.
  intros Hfile Hdir. unfold FS.write_text.
  destruct (Path.parent path) as [d|]; [rewrite (Hdir d eq_refl)|];
    rewrite Hfile, (insert_id _ _ _ Hfile); reflexivity.
Qed.

End WorkingTree.

Section Steps.

Implicit Types (fs : gmap string node) (s : step) (l : list step).

Lemma exec_step_settled s fs :
  settled fs s -> exec_step s fs = Run (Ok tt) fs [step_event s].
Proof.
  destruct s as [line|path|path chunks]; simpl; intros H.
  - reflexivity.
  - unfold os_makedirs, lift_fs, FS.makedirs.
    rewrite (mkdir_chain_settled _ _ _ H). reflexivity.
  - destruct H as [Hfile Hdir]. unfold with_open_w, lift_fs.
    rewrite (write_text_settled _ _ _ Hfile Hdir). reflexivity.
Qed.

Lemma exec_step_ok s fs :
  res (exec_step s fs) = Ok tt ->
  settled (files (exec_step s fs)) s
  /\ trace (exec_step s fs) = [step_event s].
Proof.
  destruct s as [line|path|path chunks]; simpl.
  - auto.
  - unfold os_makedirs, lift_fs, FS.makedirs.
    destruct (FS.mkdir_chain (Path.parents path) path fs) as [[e|] fs'] eqn:E;
      simpl; [discriminate|]. intros _. split; [|reflexivity].
    exact (mkdir_chain_ok _ _ _ _ E).
  - unfold with_open_w, lift_fs.
    destruct (FS.write_text path (String.concat "" chunks) fs)
      as [[e|] fs'] eqn:E; simpl; [discriminate|]. intros _.
    destruct (write_text_ok _ _ _ _ E) as (-> & Hnodir & Hparent).
    split; [|reflexivity]. split; [apply lookup_insert_eq|].
    intros d Hd. rewrite lookup_insert_ne; [eauto|].
    intros <-. apply Hnodir. eauto.
Qed.

Lemma exec_step_raise s fs e :
  res (exec_step s fs) = Raise e ->
  trace (exec_step s fs) = []
  /\ exec_step s (files (exec_step s fs))
     = Run (Raise e) (files (exec_step s fs)) [].
Proof.
  destruct s as [line|path|path chunks]; simpl.
  - discriminate.
  - unfold os_makedirs, lift_fs, FS.makedirs.
    destruct (FS.mkdir_chain (Path.parents path) path fs) as [[e'|] fs'] eqn:E;
      simpl; [|discriminate]. intros [= ->]. split; [reflexivity|].
    rewrite (mkdir_chain_fails_again _ _ _ _ _ E). reflexivity.
  - unfold with_open_w, lift_fs.
    destruct (FS.write_text path (String.concat "" chunks) fs)
      as [[e'|] fs'] eqn:E; simpl; [|discriminate]. intros [= ->].
    split; [reflexivity|].
    pose proof (write_text_raise _ _ _ _ _ E) as ->. rewrite E. reflexivity.
Qed.

(** No step takes a directory away. *)
Lemma exec_step_keeps_dir s fs d :
  fs !! d = Some Dir -> files (exec_step s fs) !! d = Some Dir.
Proof.
  intros Hd. destruct s as [line|path|path chunks]; simpl.
  - exact Hd.
  - unfold os_makedirs, lift_fs, FS.makedirs.
    pose proof (mkdir_chain_subseteq (Path.parents path) path fs) as Hsub.
    destruct (FS.mkdir_chain (Path.parents path) path fs) as [[e|] fs'];
      simpl in *; eapply lookup_weaken; eauto.
  - unfold with_open_w, lift_fs.
    destruct (FS.write_text path (String.concat "" chunks) fs)
      as [[e|] fs'] eqn:E; simpl.
    + pose proof (write_text_raise _ _ _ _ _ E) as ->. exact Hd.
    + destruct (write_text_ok _ _ _ _ E) as (-> & Hnodir & _).
      rewrite lookup_insert_ne; [exact Hd|]. intros <-. auto.
Qed.

(** A file stays as it is as long as no step writes to it. *)
Lemma exec_step_keeps_file s fs path content :
  fs !! path = Some (File content) ->
  ~ In path (write_paths [s]) ->
  files (exec_step s fs) !! path = Some (File content).
Proof.
  intros Hf Hother. destruct s as [line|path'|path' chunks]; simpl.
  - exact Hf.
  - unfold os_makedirs, lift_fs, FS.makedirs.
    pose proof (mkdir_chain_subseteq (Path.parents path') path' fs) as Hsub.
    destruct (FS.mkdir_chain (Path.parents path') path' fs) as [[e|] fs'];
      simpl in *; eapply lookup_weaken; eauto.
  - unfold with_open_w, lift_fs.
    destruct (FS.write_text path' (String.concat "" chunks) fs)
      as [[e|] fs'] eqn:E; simpl.
    + pose proof (write_text_raise _ _ _ _ _ E) as ->. exact Hf.
    + destruct (write_text_ok _ _ _ _ E) as (-> & _ & _).
      rewrite lookup_insert_ne; [exact Hf|].
      intros <-. apply Hother. simpl. auto.
Qed.

Lemma exec_step_keeps_settled s s' fs :
  settled fs s -> apart s s' -> settled (files (exec_step s' fs)) s.
Proof.
  destruct s as [line|path|path chunks]; simpl.
  - auto.
  - intros H _ d Hd. apply exec_step_keeps_dir. auto.
  - intros [Hfile Hdir] Hapart. split.
    + apply exec_step_keeps_file; assumption.
    + intros d Hd. apply exec_step_keeps_dir. auto.
Qed.

Lemma apart_of_write_paths s l :
  (forall path chunks, s = SWrite path chunks -> ~ In path (write_paths l)) ->
  Forall (apart s) l.
Proof.
  intros H. induction l as [|s' l IH]; constructor.
  - destruct s as [line|path|path chunks]; simpl; auto.
    intros Hin. apply (H path chunks eq_refl).
    destruct s'; simpl in *; tauto.
  - apply IH. intros path chunks Hs Hin. apply (H path chunks Hs).
    destruct s'; simpl; auto.
Qed.

Lemma exec_steps_keeps_settled l s fs :
  settled fs s -> Forall (apart s) l -> settled (files (exec_steps l fs)) s.
Proof.
  revert fs. induction l as [|s' l IH]; intros fs Hs Hl; simpl; [exact Hs|].
  inversion Hl as [|? ? Hs' Hl']; subst.
  pose proof (exec_step_keeps_settled s s' fs Hs Hs') as H1.
  unfold bind. destruct (res (exec_step s' fs)); simpl; auto.
Qed.

(** Steps whose work is already there leave the working tree alone. *)
Lemma exec_steps_done done rest fs :
  Forall (settled fs) done ->
  exec_steps (done ++ rest) fs
  = Run (res (exec_steps rest fs)) (files (exec_steps rest fs))
      (map step_event done ++ trace (exec_steps rest fs)).
Proof.
  induction done as [|s done IH]; intros H; simpl.
  - destruct (exec_steps rest fs); reflexivity.
  - inversion H as [|? ? Hs Hdone]; subst.
    unfold bind at 1. rewrite (exec_step_settled s fs Hs). simpl.
    rewrite (IH Hdone). reflexivity.
Qed.

(** A run of steps went through a first part of the list, which is
    settled in the working tree it leaves, and stopped either at the end or
    at a step that fails again there. *)
Lemma exec_steps_split l :
  NoDup (write_paths l) ->
  forall fs,
    exists done rest,
      l = done ++ rest
      /\ Forall (settled (files (exec_steps l fs))) done
      /\ trace (exec_steps l fs) = map step_event done
      /\ match res (exec_steps l fs) with
         | Ok _ => rest = []
         | Raise e =>
             exists s rest',
               rest = s :: rest'
               /\ exec_step s (files (exec_steps l fs))
                  = Run (Raise e) (files (exec_steps l fs)) []
         end.
Proof.
  induction l as [|s l IH]; intros Hnodup fs.
  - exists [], []. simpl. auto.
  - assert (Hl : NoDup (write_paths l)).
    { destruct s; simpl in Hnodup; auto. inversion Hnodup; auto. }
    assert (Hapart : Forall (apart s) l).
    { apply apart_of_write_paths. intros path chunks -> Hin.
      simpl in Hnodup. inversion Hnodup as [|? ? Hnotin _]; subst.
      apply Hnotin, list_elem_of_In. exact Hin. }
    simpl. unfold bind.
    destruct (res (exec_step s fs)) as [[]|e] eqn:E; simpl.
    + destruct (exec_step_ok s fs E) as [Hs Htrace].
      destruct (IH Hl (files (exec_step s fs)))
        as (done & rest & -> & Hdone & Htr & Hres).
      exists (s :: done), rest. split; [reflexivity|]. split; [|split].
      * constructor; [|exact Hdone].
        apply exec_steps_keeps_settled; assumption.
      * rewrite Htrace, Htr. reflexivity.
      * exact Hres.
    + destruct (exec_step_raise s fs e E) as [Htrace Hagain].
      exists [], (s :: l). split; [reflexivity|]. split; [constructor|].
      split; [exact Htrace|]. eauto.
Qed.

(** Running the steps once more from the working tree they leave gives
    the same run. *)
Lemma exec_steps_idempotent l fs :
  NoDup (write_paths l) ->
  exec_steps l (files (exec_steps l fs)) = exec_steps l fs.
Proof.
  intros Hnodup.
  destruct (exec_steps_split l Hnodup fs)
    as (done & rest & Hl & Hdone & Htrace & Hres).
  rewrite Hl at 1. rewrite (exec_steps_done _ _ _ Hdone).
  destruct (exec_steps l fs) as [r f t] eqn:E. simpl in *. subst t.
  destruct r as [[]|e].
  - subst rest. simpl. rewrite app_nil_r. reflexivity.
  - destruct Hres as (s & rest' & -> & Hfail). simpl.
    unfold bind. rewrite Hfail. simpl. rewrite app_nil_r. reflexivity.
Qed.

End Steps.

Section Layout.

Lemma bind_congr {A B} (m : M A) (f g : A -> M B) (fs : gmap string node) :
  (forall a fs', f a fs' = g a fs') -> bind m f fs = bind m g fs.
Proof. intros H. unfold bind. destruct (res (m fs)); [rewrite H|]; reflexivity. Qed.

(** The shape of [create_project_structure]: a line, three directories,
    five files, a line. *)
Lemma layout_steps (line0 d1 d2 d3 f1 : string) (c1 : list string)
    (f2 : string) (c2 : list string) (f3 : string) (c3 : list string)
    (f4 : string) (c4 : list string) (f5 : string) (c5 : list string)
    (line1 : string) (fs : gmap string node) :
  (print line0;; os_makedirs d1;; os_makedirs d2;; os_makedirs d3;;
   with_open_w f1 c1;; with_open_w f2 c2;; with_open_w f3 c3;;
   with_open_w f4 c4;; with_open_w f5 c5;; print line1) fs
  = exec_steps [SPrint line0; SMakedirs d1; SMakedirs d2; SMakedirs d3;
                SWrite f1 c1; SWrite f2 c2; SWrite f3 c3; SWrite f4 c4;
                SWrite f5 c5; SPrint line1] fs.
Proof.
  simpl. repeat (apply bind_congr; intros ? ?).
  symmetry. apply bind_ret_r.
Qed.

Lemma append_cancel_l (p a b : string) : p +:+ a = p +:+ b -> a = b.
Proof. induction p as [|c p IH]; simpl; [auto|]. intros [= H]. auto. Qed.

(** The five files of the layout are five different paths. *)
Lemma layout_paths_differ (name : string) :
  NoDup [ "src/" +:+ name +:+ "/__init__.py"; "src/" +:+ name +:+ "/main.py";
          "tests/test_main.py"; "setup.py"; "pyproject.toml" ].
Proof.
  apply NoDup_ListNoDup.
  repeat constructor; simpl; intros H;
    repeat (destruct H as [H|H]; try discriminate H); try exact H.
  injection H as H. apply append_cancel_l in H. discriminate H.
Qed.

(** C8: running [create_project_structure] again in the working tree left
    by a first run is the same run: it ends the same way (directories that
    are there do not raise), it writes the same texts to the same files and
    it leaves the working tree as it found it. *)
Theorem create_project_structure_idempotent (project_name : string)
    (fs : gmap string node) :
  create_project_structure project_name
    (files (create_project_structure project_name fs))
  = create_project_structure project_name fs.
Proof.
  unfold create_project_structure. cbv zeta.
  rewrite !layout_steps. apply exec_steps_idempotent.
  apply layout_paths_differ.
Qed.

End Layout.

Example layout_twice_from_empty :
  let r := create_project_structure "acme-my-project" ∅ in
  res r = Ok tt
  /\ files r !! "src/acme_my_project" = Some Dir
  /\ files r !! "setup.py"
     = head (written "setup.py" (trace r)) ≫= (fun text => Some (File text))
  /\ create_project_structure "acme-my-project" (files r) = r.
Proof. vm_compute. repeat split. Qed.

Example layout_blocked_by_a_file :
  let fs : gmap string node := {[ "tests" := File "notes" ]} in
  let r := create_project_structure "acme-my-project" fs in
  res r = Raise (FileExistsError "tests")
  /\ create_project_structure "acme-my-project" (files r) = r.
Proof. vm_compute. repeat split. Qed.

(** ** NameDeriver: what a derived name is made of *)

Lemma lower_char_settles (c : ascii) :
  space_or_underscore (Text.lower_char c)
  || NameFacts.settled_char (Text.lower_char c) = true.
Proof. destruct c as [[] [] [] [] [] [] [] []]; reflexivity. Qed.

Lemma lower_all_settle (s : string) :
  NameSpec.all_chars
    (fun c => space_or_underscore c || NameFacts.settled_char c)
    (Text.lower s) = true.
Proof.
  induction s as [|c r IH]; simpl; [reflexivity|].
  rewrite lower_char_settles. exact IH.
Qed.

Lemma lower_settled (s : string) :
  NameSpec.all_chars NameFacts.settled_char s = true -> Text.lower s = s.
Proof.
  induction s as [|c r IH]; simpl; [reflexivity|].
  unfold NameFacts.settled_char at 1.
  rewrite !andb_true_iff. intros [[_ Hc] Hr].
  apply Ascii.eqb_eq in Hc. rewrite Hc, (IH Hr). reflexivity.
Qed.

Lemma re_sub_class_settled (s : string) :
  NameSpec.all_chars NameFacts.settled_char s = true ->
  Text.re_sub_class space_or_underscore "-" false s = s.
Proof.
  induction s as [|c r IH]; simpl; [reflexivity|].
  unfold NameFacts.settled_char at 1.
  rewrite !andb_true_iff, negb_true_iff. intros [[Hc _] Hr].
  rewrite Hc, (IH Hr). reflexivity.
Qed.

Lemma sanitized_settled (dir : string) :
  NameSpec.all_chars NameFacts.settled_char (NameFacts.sanitized dir) = true.
Proof.
  unfold NameFacts.sanitized, Text.re_sub_plus.
  apply re_sub_class_all_chars; [reflexivity|]. apply lower_all_settle.
Qed.

(** X1: whatever the folder is called, the part of the name that follows
    the prefix and its hyphen holds no white space, no underscore and no
    character that lower-casing would change. *)
Theorem get_project_name_settled (prefix dir : string) :
  get_project_name dir prefix = prefix +:+ "-" +:+ NameFacts.sanitized dir
  /\ NameSpec.all_chars NameFacts.settled_char (NameFacts.sanitized dir) = true
  /\ NameSpec.all_chars (fun c => negb (Text.isspace c))
       (NameFacts.sanitized dir) = true.
Proof.
  split; [reflexivity|]. split; [apply sanitized_settled|].
  pose proof (sanitized_settled dir) as H.
  induction (NameFacts.sanitized dir) as [|c r IH]; simpl in *; [reflexivity|].
  apply andb_true_iff in H as [Hc Hr]. rewrite (IH Hr), andb_true_r.
  unfold NameFacts.settled_char, space_or_underscore in Hc.
  destruct (Text.isspace c); [discriminate Hc|reflexivity].
Qed.

(** X2: a folder that is already named by the convention keeps its name,
    and deriving a name from the derived folder part gives the same name
    again. *)
Theorem get_project_name_stable (prefix dir : string) :
  (NameSpec.all_chars NameFacts.settled_char dir = true ->
   get_project_name dir prefix = prefix +:+ "-" +:+ dir)
  /\ get_project_name (NameFacts.sanitized dir) prefix
     = get_project_name dir prefix.
Proof.
  assert (H : forall d, NameSpec.all_chars NameFacts.settled_char d = true ->
                        get_project_name d prefix = prefix +:+ "-" +:+ d).
  { intros d Hd. unfold get_project_name, Text.re_sub_plus.
    rewrite (lower_settled d Hd), (re_sub_class_settled d Hd). reflexivity. }
  split; [apply H|].
  rewrite (H _ (sanitized_settled dir)). reflexivity.
Qed.

Lemma get_project_name_stable_witness :
  NameSpec.all_chars NameFacts.settled_char "my-project.v2" = true
  /\ get_project_name "my-project.v2" "acme" = "acme-my-project.v2".
Proof.
  split; [reflexivity|].
  apply (proj1 (get_project_name_stable "acme" "my-project.v2")). reflexivity.
Defined.

Lemma lower_char_separator (c : ascii) :
  space_or_underscore c = true ->
  space_or_underscore (Text.lower_char c) = true.
Proof.
  destruct c as [[] [] [] [] [] [] [] []]; vm_compute; intros H;
    first [reflexivity | discriminate H].
Qed.

Lemma lower_app (a b : string) :
  Text.lower (a +:+ b) = Text.lower a +:+ Text.lower b.
Proof. induction a as [|c a IH]; simpl; [reflexivity|]. rewrite IH. reflexivity. Qed.

(** A run at the end of the text leaves its hyphen at the end. *)
Lemma re_sub_class_trailing_run (cls : ascii -> bool) (s : string) (c : ascii) :
  cls c = true ->
  (exists body,
     Text.re_sub_class cls "-" false (s +:+ String c "") = body +:+ "-")
  /\ (exists body,
        String "-" (Text.re_sub_class cls "-" true (s +:+ String c ""))
        = body +:+ "-").
Proof.
  intros Hc. induction s as [|x r [[b1 IH1] [b2 IH2]]]; simpl.
  - rewrite Hc. split; exists ""; reflexivity.
  - destruct (cls x); simpl.
    + split; exists b2; exact IH2.
    + split; [exists (String x b1)|exists (String "-" (String x b1))];
        simpl; rewrite IH1; reflexivity.
Qed.

(** X3: the edges of the substitution. An empty folder name gives the
    prefix and a bare hyphen; a folder name that begins with white space or
    an underscore gives two hyphens after the prefix, and one that ends
    with white space or an underscore gives a name that ends with a
    hyphen. *)
Theorem get_project_name_edges (prefix : string) :
  get_project_name "" prefix = prefix +:+ "-"
  /\ (forall c rest, space_or_underscore c = true ->
      exists tail,
        get_project_name (String c rest) prefix = prefix +:+ "--" +:+ tail)
  /\ (forall front c, space_or_underscore c = true ->
      exists body,
        get_project_name (front +:+ String c "") prefix
        = prefix +:+ "-" +:+ body +:+ "-").
Proof.
  split; [reflexivity|]. split.
  - intros c rest Hc. unfold get_project_name, Text.re_sub_plus. simpl.
    rewrite (lower_char_separator c Hc). eexists. reflexivity.
  - intros front c Hc. unfold get_project_name, Text.re_sub_plus.
    rewrite lower_app. simpl.
    destruct (re_sub_class_trailing_run space_or_underscore
                (Text.lower front) (Text.lower_char c)
                (lower_char_separator c Hc)) as [[body H] _].
    exists body. rewrite H. reflexivity.
Qed.

Lemma get_project_name_edges_witness :
  space_or_underscore " " = true
  /\ (exists tail, get_project_name " my project" "acme"
                   = "acme" +:+ "--" +:+ tail)
  /\ (exists body, get_project_name ("my project" +:+ String " " "") "acme"
                   = "acme" +:+ "-" +:+ body +:+ "-").
Proof.
  split; [reflexivity|]. split.
  - apply (proj1 (proj2 (get_project_name_edges "acme")) " "%char "my project").
    reflexivity.
  - apply (proj2 (proj2 (get_project_name_edges "acme")) "my project" " "%char).
    reflexivity.
Defined.

(** ** The account identity *)

Lemma lstrip_fixed (s : string) :
  match s with
  | EmptyString => True
  | String c _ => Text.isspace c = false
  end -> Text.lstrip s = s.
Proof. destruct s as [|c r]; simpl; [reflexivity|]. intros ->. reflexivity. Qed.

Lemma lstrip_head (s : string) :
  match Text.lstrip s with
  | EmptyString => True
  | String c _ => Text.isspace c = false
  end.
Proof.
  induction s as [|c r IH]; simpl; [exact I|].
  destruct (Text.isspace c) eqn:E; [exact IH|exact E].
Qed.

Lemma rstrip_head (s : string) :
  match s with
  | EmptyString => True
  | String c _ => Text.isspace c = false
  end ->
  match Text.rstrip s with
  | EmptyString => True
  | String c _ => Text.isspace c = false
  end.
Proof.
  destruct s as [|c r]; simpl; [auto|]. intros Hc.
  destruct (Text.rstrip r); [rewrite Hc|]; exact Hc.
Qed.

Lemma rstrip_rstrip (s : string) : Text.rstrip (Text.rstrip s) = Text.rstrip s.
Proof.
  induction s as [|c r IH]; simpl; [reflexivity|].
  destruct (Text.rstrip r) as [|c' r'] eqn:E.
  - destruct (Text.isspace c) eqn:Ec; simpl; [reflexivity|].
    rewrite Ec. reflexivity.
  - simpl in *. rewrite IH. reflexivity.
Qed.

(** [strip] takes nothing more from a text it has already stripped. *)
Lemma strip_strip (s : string) : Text.strip (Text.strip s) = Text.strip s.
Proof.
  unfold Text.strip.
  rewrite (lstrip_fixed (Text.rstrip (Text.lstrip s))).
  - apply rstrip_rstrip.
  - apply rstrip_head, lstrip_head.
Qed.

(** X4: [get_github_username] asks [gh] once and leaves the working tree
    alone. It never raises [CalledProcessError]: with a [gh] that can be
    run it returns the login that [gh] printed, without the white space
    around it, and the placeholder [yourusername] when [gh] ends with a
    return code other than zero or prints nothing but white space. What it
    returns is never empty and never has white space at either end. *)
Theorem get_github_username_result (sh : list string -> outcome)
    (fs : gmap string node) :
  let query := ["gh"; "api"; "user"; "--jq"; ".login"] in
  let r := get_github_username sh fs in
  files r = fs
  /\ trace r = [ERun query (sh query)]
  /\ match sh query with
     | NotFound => res r = Raise (FileNotFoundError "gh")
     | Exited rc out =>
         res r = Ok (if (rc =? 0)%Z && Text.truthy (Text.strip out)
                     then Text.strip out else "yourusername")
     end
  /\ forall u, res r = Ok u -> Text.truthy u = true /\ Text.strip u = u.
Proof.
  intros query r. subst r query.
  unfold get_github_username, try_except_CalledProcessError, bind,
    subprocess_run, ret.
  destruct (sh ["gh"; "api"; "user"; "--jq"; ".login"]) as [|rc out]; simpl.
  - split; [reflexivity|]. split; [reflexivity|]. split; [reflexivity|].
    intros u [=].
  - destruct (rc =? 0)%Z; simpl;
      (split; [reflexivity|]; split; [reflexivity|]; split; [reflexivity|]).
    + destruct (Text.truthy (Text.strip out)) eqn:E; intros u [= <-].
      * split; [exact E|apply strip_strip].
      * split; reflexivity.
    + intros u [= <-]. split; reflexivity.
Qed.

Lemma get_github_username_result_witness :
  res (get_github_username Sample.sh_all_ok ∅) = Ok "octocat"
  /\ Text.strip "octocat" = "octocat".
Proof.
  assert (H : res (get_github_username Sample.sh_all_ok ∅) = Ok "octocat")
    by reflexivity.
  split; [exact H|].
  pose proof (get_github_username_result Sample.sh_all_ok ∅) as Hr.
  cbv zeta in Hr. destruct Hr as (_ & _ & _ & Hu).
  exact (proj2 (Hu "octocat" H)).
Defined.

(** ** EnvironmentProvisioner *)

Section BindEquations.

Context {A : Type}.
Variables (f : unit -> M A) (fs : gmap string node).



End BindEquations.





(** ** LayoutGenerator: what it leaves *)

Lemma replace_char_no_hyphen (s : string) :
  NameSpec.has_hyphen (Text.replace_char "-" "_" s) = false.
Proof.
  unfold NameSpec.has_hyphen. rewrite negb_false_iff.
  induction s as [|c r IH]; simpl; [reflexivity|].
  destruct (Ascii.eqb c "-") eqn:E; simpl; [exact IH|].
  rewrite E. exact IH.
Qed.

(** What the trace of a list of steps reports is in the tree it leaves. *)
Lemma exec_steps_reflected (l : list step) (fs : gmap string node) :
  NoDup (write_paths l) ->
  (forall path text,
     In (EWrite path text) (trace (exec_steps l fs)) ->
     files (exec_steps l fs) !! path = Some (File text))
  /\ (forall path,
        In (EMakedirs path) (trace (exec_steps l fs)) ->
        forall d, In d (Path.parents path ++ [path]) ->
                  files (exec_steps l fs) !! d = Some Dir).
Proof.
  intros Hnodup.
  destruct (exec_steps_split l Hnodup fs)
    as (done & rest & _ & Hdone & Htrace & _).
  rewrite Htrace. clear Htrace.
  induction Hdone as [|s done Hs Hdone IH]; simpl; [split; intros; tauto|].
  destruct IH as [IHw IHd]. split.
  - intros path text [H|H]; [|exact (IHw path text H)].
    destruct s; simpl in H; try discriminate H.
    injection H as <- <-. apply Hs.
  - intros path [H|H]; [|exact (IHd path H)].
    destruct s; simpl in H; try discriminate H.
    injection H as <-. apply Hs.
Qed.

(** A run of steps that comes to its end has done every step. *)
Lemma exec_steps_completed (l : list step) (fs : gmap string node) :
  NoDup (write_paths l) ->
  res (exec_steps l fs) = Ok tt ->
  trace (exec_steps l fs) = map step_event l.
Proof.
  intros Hnodup Hres.
  destruct (exec_steps_split l Hnodup fs)
    as (done & rest & Hl & _ & Htrace & Hrest).
  rewrite Hres in Hrest. subst rest. rewrite app_nil_r in Hl. subst done.
  exact Htrace.
Qed.

Lemma package_dir_parents (project_name : string) :
  exists more,
    Path.parents (package_dir project_name) = "src" :: more.
Proof. unfold package_dir, Path.parents. simpl. eauto. Qed.

(** X6: whatever [create_project_structure] reports as made or written is
    in the tree it leaves, also when it fails half way. When it comes to
    its end, [src], the package directory (the project name with
    underscores for hyphens, so without any hyphen), [tests] and [docs] are
    directories, the five files are there, [setup.py] declares the project
    name and the test imports from the package the directory is named
    after. *)
Theorem create_project_structure_done (project_name : string)
    (fs : gmap string node) :
  let r := create_project_structure project_name fs in
  (forall path text,
     In (EWrite path text) (trace r) -> files r !! path = Some (File text))
  /\ (forall path,
        In (EMakedirs path) (trace r) -> files r !! path = Some Dir)
  /\ NameSpec.has_hyphen (Text.replace_char "-" "_" project_name) = false
  /\ (res r = Ok tt ->
      Forall (fun d => files r !! d = Some Dir)
        (layout_directories project_name)
      /\ Forall (fun path => exists text, files r !! path = Some (File text))
           (layout_files project_name)
      /\ (exists text,
            files r !! "setup.py" = Some (File text)
            /\ contains text
                 ("    name=" +:+ dq +:+ project_name +:+ dq +:+ "," +:+ nl))
      /\ (exists text,
            files r !! "tests/test_main.py" = Some (File text)
            /\ contains text
                 ("from " +:+ Text.replace_char "-" "_" project_name
                  +:+ ".main import main" +:+ nl +:+ nl))).
Proof.
  intros r. subst r.
  unfold create_project_structure. cbv zeta. fold (package_dir project_name).
  rewrite !layout_steps.
  match goal with
  | |- context [exec_steps ?l fs] => set (steps := l)
  end.
  assert (Hnodup : NoDup (write_paths steps))
    by apply layout_paths_differ.
  destruct (exec_steps_reflected steps fs Hnodup) as [Hwritten Hmade].
  split; [exact Hwritten|].
  split; [intros path H; apply (Hmade path H); apply in_or_app; simpl; auto|].
  split; [apply replace_char_no_hyphen|].
  intros Hres.
  pose proof (exec_steps_completed steps fs Hnodup Hres) as Htrace.
  assert (Hw : forall path chunks,
             In (SWrite path chunks) steps ->
             files (exec_steps steps fs) !! path
             = Some (File (String.concat "" chunks))).
  { intros path chunks Hin. apply Hwritten. rewrite Htrace.
    apply (in_map step_event _ _ Hin). }
  assert (Hd : forall path d,
             In (SMakedirs path) steps ->
             In d (Path.parents path ++ [path]) ->
             files (exec_steps steps fs) !! d = Some Dir).
  { intros path d Hin. apply Hmade. rewrite Htrace.
    apply (in_map step_event _ _ Hin). }
  split; [|split; [|split]].
  - destruct (package_dir_parents project_name) as [more Hmore].
    repeat constructor.
    + apply (Hd (package_dir project_name)); [simpl; auto|].
      rewrite Hmore. simpl. auto.
    + apply (Hd (package_dir project_name)); [simpl; auto|].
      apply in_or_app. simpl. auto.
    + apply (Hd "tests"); simpl; auto.
    + apply (Hd "docs"); simpl; auto 10.
  - unfold layout_files.
    repeat constructor; eexists; apply Hw; simpl; auto 20.
  - eexists. split; [apply Hw; simpl; auto 20|].
    match goal with
    | |- contains (String.concat "" ?l) ?x =>
        apply (contains_concat (firstn 3 l) x (skipn 4 l))
    end.
  - eexists. split; [apply Hw; simpl; auto 20|].
    match goal with
    | |- contains (String.concat "" ?l) ?x =>
        apply (contains_concat (firstn 1 l) x (skipn 2 l))
    end.
Qed.

Lemma create_project_structure_done_witness :
  res (create_project_structure "acme-my-project" ∅) = Ok tt
  /\ files (create_project_structure "acme-my-project" ∅)
       !! "src/acme_my_project" = Some Dir.
Proof.
  assert (H : res (create_project_structure "acme-my-project" ∅) = Ok tt)
    by (vm_compute; reflexivity).
  split; [exact H|].
  pose proof (create_project_structure_done "acme-my-project" ∅) as Hr.
  cbv zeta in Hr. destruct Hr as (_ & _ & _ & Hdone).
  destruct (Hdone H) as (Hdirs & _).
  inversion Hdirs as [|? ? _ Hrest]. inversion Hrest as [|? ? Hpkg _].
  exact Hpkg.
Defined.

(** ** LayoutGenerator: what it leaves alone *)












(** ** The tree and the log *)

Lemma written_app (path : string) (t1 t2 : list event) :
  written path (t1 ++ t2) = written path t1 ++ written path t2.
Proof.
  induction t1 as [|e t1 IH]; simpl; [reflexivity|].
  destruct e; try exact IH. destruct (String.eqb path0 path); simpl;
    rewrite IH; reflexivity.
Qed.

Lemma keeps_refl (fs : gmap string node) : keeps fs fs [].
Proof. split; auto. Qed.

Lemma keeps_trans (fs fs1 fs2 : gmap string node) (t1 t2 : list event) :
  keeps fs fs1 t1 -> keeps fs1 fs2 t2 -> keeps fs fs2 (t1 ++ t2).
Proof.
  intros [Hd1 Hf1] [Hd2 Hf2]. split; [auto|].
  intros path text Hfile Hw. rewrite written_app in Hw.
  apply app_eq_nil in Hw as [Hw1 Hw2]. auto.
Qed.

Lemma reflects_nil (fs : gmap string node) : reflects fs [].
Proof. split; simpl; [discriminate|tauto]. Qed.

Lemma reflects_app (fs1 fs2 : gmap string node) (t1 t2 : list event) :
  reflects fs1 t1 -> keeps fs1 fs2 t2 -> reflects fs2 t2 ->
  reflects fs2 (t1 ++ t2).
Proof.
  intros [Hf1 Hd1] [Hkd Hkf] [Hf2 Hd2]. split.
  - intros path text. rewrite written_app, last_app.
    destruct (last (written path t2)) as [text'|] eqn:E.
    + intros [= <-]. auto.
    + intros H. apply last_None in E. auto.
  - intros path d Hin Hd. apply in_app_or in Hin as [Hin|Hin]; eauto.
Qed.

Section Faithful.

Context {A : Type}.

Lemma faithful_pure (m : M A) :
  (forall fs, files (m fs) = fs) ->
  (forall fs path, written path (trace (m fs)) = []) ->
  (forall fs path, ~ In (EMakedirs path) (trace (m fs))) ->
  faithful m.
Proof.
  intros Hfiles Hw Hd fs. rewrite Hfiles. split; split; auto.
  - intros path text. rewrite Hw. discriminate.
  - intros path d H. destruct (Hd fs path H).
Qed.

Lemma faithful_ret (a : A) : faithful (ret a).
Proof. apply faithful_pure; simpl; auto. Qed.

Lemma faithful_raise (e : exn) : faithful (@raise A e).
Proof. apply faithful_pure; simpl; auto. Qed.

Lemma faithful_sys_exit (code : Z) : faithful (@sys_exit A code).
Proof. apply faithful_raise. Qed.

Lemma faithful_bind {B} (m : M B) (f : B -> M A) :
  faithful m -> (forall b, faithful (f b)) -> faithful (bind m f).
Proof.
  intros Hm Hf fs. unfold bind.
  destruct (Hm fs) as [Hk1 Hr1].
  destruct (res (m fs)) as [b|e]; simpl; [|auto].
  destruct (Hf b (files (m fs))) as [Hk2 Hr2].
  split; [eapply keeps_trans|eapply reflects_app]; eauto.
Qed.

Lemma faithful_try (body : M A) (handler : list string * Z -> M A) :
  faithful body -> (forall e, faithful (handler e)) ->
  faithful (try_except_CalledProcessError body handler).
Proof.
  intros Hm Hf fs. unfold try_except_CalledProcessError.
  destruct (Hm fs) as [Hk1 Hr1].
  destruct (res (body fs)) as [a|[]]; simpl; auto.
  destruct (Hf (cmd, returncode) (files (body fs))) as [Hk2 Hr2].
  split; [eapply keeps_trans|eapply reflects_app]; eauto.
Qed.

Lemma faithful_if (b : bool) (m1 m2 : M A) :
  faithful m1 -> faithful m2 -> faithful (if b then m1 else m2).
Proof. destruct b; auto. Qed.

End Faithful.

Lemma faithful_print (line : string) : faithful (print line).
Proof. apply faithful_pure; simpl; intuition discriminate. Qed.

Lemma faithful_subprocess_run (sh : list string -> outcome)
    (cmd : list string) : faithful (subprocess_run sh cmd).
Proof.
  apply faithful_pure; intros fs; unfold subprocess_run;
    destruct (sh cmd) as [|rc out]; simpl; intuition discriminate.
Qed.

Lemma faithful_with_open_w (path : string) (chunks : list string) :
  faithful (with_open_w path chunks).
Proof.
  intros fs. unfold with_open_w, lift_fs.
  destruct (FS.write_text path (String.concat "" chunks) fs)
    as [[e|] fs'] eqn:E; simpl.
  - pose proof (write_text_raise _ _ _ _ _ E) as ->.
    split; [apply keeps_refl|apply reflects_nil].
  - destruct (write_text_ok _ _ _ _ E) as (-> & Hnodir & _).
    split; split.
    + intros d Hd. rewrite lookup_insert_ne; [exact Hd|].
      intros <-. auto.
    + intros q text Hq. simpl.
      destruct (String.eqb_spec path q) as [->|Hne];
        [intros H; discriminate H|].
      intros _. rewrite lookup_insert_ne; assumption.
    + intros q text. simpl.
      destruct (String.eqb_spec path q) as [->|Hne];
        [|intros H; discriminate H].
      intros [= <-]. apply lookup_insert_eq.
    + intros q d [H|[]]. discriminate H.
Qed.

Lemma faithful_os_makedirs (path : string) : faithful (os_makedirs path).
Proof.
  intros fs. unfold os_makedirs, lift_fs, FS.makedirs.
  pose proof (mkdir_chain_subseteq (Path.parents path) path fs) as Hsub.
  destruct (FS.mkdir_chain (Path.parents path) path fs) as [[e|] fs'] eqn:E;
    simpl in *.
  - split; [|apply reflects_nil].
    split; intros; eapply lookup_weaken; eauto.
  - split; split; try (intros; eapply lookup_weaken; eauto; fail).
    + discriminate.
    + intros q d [[= <-]|[]]. exact (mkdir_chain_ok _ _ _ _ E d).
Qed.

Create HintDb faithful.
#[local] Hint Resolve faithful_ret faithful_raise faithful_sys_exit
  faithful_print faithful_subprocess_run faithful_with_open_w
  faithful_os_makedirs : faithful.

(** A computation written with the operations of the script is faithful. *)
Ltac faithful_steps :=
  repeat first
    [ apply faithful_bind; [|intros ?]
    | apply faithful_try; [|intros ?]
    | apply faithful_if
    | solve [auto with faithful] ].

Section FaithfulScript.

Variable sh : list string -> outcome.
Variable os_name : string.
Variable current_folder : string.
Variable str_CalledProcessError : list string * Z -> string.

Lemma faithful_setup_virtual_environment project_name :
  faithful (setup_virtual_environment sh os_name project_name).
Proof. unfold setup_virtual_environment. cbv zeta. faithful_steps. Qed.

Lemma faithful_create_project_structure project_name :
  faithful (create_project_structure project_name).
Proof. unfold create_project_structure. cbv zeta. faithful_steps. Qed.

Lemma faithful_get_github_username : faithful (get_github_username sh).
Proof. unfold get_github_username. cbv zeta. faithful_steps. Qed.

Lemma faithful_setup_git project_name use_github visibility :
  faithful (setup_git sh str_CalledProcessError project_name use_github
              visibility).
Proof.
  unfold setup_git.
  pose proof faithful_get_github_username. faithful_steps.
Qed.

Lemma faithful_main argv :
  faithful (main sh os_name current_folder str_CalledProcessError argv).
Proof.
  unfold main. cbv zeta.
  pose proof faithful_setup_virtual_environment.
  pose proof faithful_create_project_structure.
  pose proof faithful_setup_git.
  faithful_steps.
Qed.

End FaithfulScript.

(** ** The whole run *)

Ltac split_codes :=
  repeat match goal with
         | H : ?rc <> 0%Z |- _ =>
             is_var rc; destruct rc; [congruence| |]; clear H
         end.

Ltac find_in_list := simpl; repeat first [left; reflexivity | right].

(** Every element of a list is found in another one. *)
Ltac all_found :=
  repeat (constructor; [try eexists; find_in_list|]); constructor.

Section Artifacts.

Variable sh : list string -> outcome.
Variable os_name : string.
Variable current_folder : string.
Variable str_CalledProcessError : list string * Z -> string.

Local Abbreviation script :=
  (main sh os_name current_folder str_CalledProcessError).
Local Abbreviation name_of argv :=
  (get_project_name current_folder (nth 1 argv "")).

Lemma main_remote_commands (argv : list string) (fs : gmap string node) :
  holds (fun r t =>
           Forall (fun cmd =>
                     is_repo_create cmd = true ->
                     cmd = create_command (name_of argv)
                             (if Text.mem "--public" argv
                              then "public" else "private"))
             (commands t)
           /\ (count_block [instructions_heading (name_of argv)] (printed t)
               <= 1)%nat
           /\ (r = Ok tt ->
               if succeeded is_push t
               then count_block [instructions_heading (name_of argv)]
                      (printed t) = 0%nat
                    /\ count_block ["Initial commit pushed to GitHub."]
                         (printed t) = 1%nat
               else count_block [instructions_heading (name_of argv)]
                      (printed t) = 1%nat))
        [] (script argv) fs.
Proof.
  unfold instructions_heading, create_command. unfold_script.
  run_all.
  all: split_codes.
  all: split; [simpl; repeat constructor;
               repeat (simpl; rewrite ?andb_false_r); intros H;
               first [discriminate H | reflexivity]|].
  all: split; [by_trace; lia|].
  all: intros H; first [discriminate H | idtac].
  all: repeat (simpl; rewrite ?andb_false_r); try split; by_trace.
Qed.

Lemma main_artifacts (argv : list string) (fs : gmap string node) :
  holds (fun r t =>
           (Forall (fun path => In path (artifacts (name_of argv)))
              (write_targets t)
            /\ Forall (fun d => In d [package_dir (name_of argv); "tests";
                                      "docs"])
                 (makedirs_targets t))
           /\ (r = Ok tt ->
               Forall (fun path => exists text, In (EWrite path text) t)
                 (artifacts (name_of argv))
               /\ Forall (fun d => In (EMakedirs d) t)
                    [package_dir (name_of argv); "tests"; "docs"]))
        [] (script argv) fs.
Proof.
  unfold artifacts, layout_files, package_dir. unfold_script.
  run_all.
  all: split; [split; simpl; all_found|].
  all: intros H; first [discriminate H | idtac].
  all: simpl; split; all_found.
Qed.

Lemma main_order (argv : list string) (fs : gmap string node) :
  holds (fun r t =>
           guarded is_venv (is_command is_pip) false t = true
           /\ guarded is_pip_requirements is_layout_or_git false t = true
           /\ guarded is_git_commit (is_command is_gh_version) false t = true
           /\ guarded is_gh_version (is_command is_repo_create) false t = true
           /\ guarded is_repo_create (is_command is_push) false t = true
           /\ never_after is_git_add is_file_event false t = true)
        [] (script argv) fs.
Proof.
  unfold_script. destruct (String.eqb os_name "nt").
  all: run_all.
  all: repeat split.
  all: split_codes; vm_compute; reflexivity.
Qed.


Lemma written_last (path text : string) (t : list event) :
  In (EWrite path text) t -> exists text', last (written path t) = Some text'.
Proof.
  intros H.
  assert (Hne : written path t <> []).
  { induction t as [|e t IH]; simpl in *; [tauto|].
    destruct H as [->|H].
    - rewrite String.eqb_refl. discriminate.
    - destruct e; auto. destruct (String.eqb path0 path); [discriminate|auto]. }
  destruct (last (written path t)) as [text'|] eqn:E; [eauto|].
  apply last_None in E. contradiction.
Qed.

(** X7: in every run, also one that stops on a failure, the only files
    the script opens for writing are the nine it generates (the two
    manifests, the five files of the layout, [.gitignore] and
    [README.md]), and the only directories it hands to [os.makedirs] are
    the package directory, [tests] and [docs]. *)
Theorem main_writes_only_its_artifacts (argv : list string)
    (fs : gmap string node) :
  Forall (fun path => In path (artifacts (name_of argv)))
    (write_targets (trace (script argv fs)))
  /\ Forall (fun d => In d [package_dir (name_of argv); "tests"; "docs"])
       (makedirs_targets (trace (script argv fs))).
Proof. exact (proj1 (main_artifacts argv fs)). Qed.

(** X9: when [main] comes to its end, the nine generated files are files
    of the tree and [src], the package directory, [tests] and [docs] are
    directories. *)
Theorem main_completed_tree (argv : list string) (fs : gmap string node) :
  res (script argv fs) = Ok tt ->
  Forall (fun path => exists text,
            files (script argv fs) !! path = Some (File text))
    (artifacts (name_of argv))
  /\ Forall (fun d => files (script argv fs) !! d = Some Dir)
       (layout_directories (name_of argv)).
Proof.
  intros Hres.
  destruct (faithful_main sh os_name current_folder str_CalledProcessError
              argv fs) as [_ [Hfiles Hdirs]].
  destruct (main_artifacts argv fs) as [_ Hdone].
  destruct (Hdone Hres) as [Hwritten Hmade].
  split.
  - eapply Forall_impl; [exact Hwritten|]. simpl.
    intros path [text Hin].
    destruct (written_last path text _ Hin) as [text' Hlast]. eauto.
  - assert (Hself : forall d, In (EMakedirs d)
                                (trace (script argv fs)) ->
                              files (script argv fs) !! d = Some Dir).
    { intros d Hin. apply (Hdirs d d Hin). apply in_or_app. simpl. auto. }
    inversion Hmade as [|? ? Hpkg Hrest]; subst.
    inversion Hrest as [|? ? Htests Hrest']; subst.
    inversion Hrest' as [|? ? Hdocs _]; subst.
    repeat constructor; auto.
    destruct (package_dir_parents (name_of argv)) as [more Hmore].
    apply (Hdirs _ "src" Hpkg). rewrite Hmore. simpl. auto.
Qed.

(** X10: the steps of a run come in a fixed order, each one behind the
    success of the one before: the installer is run only after the
    environment was created; a directory of the layout is made and [git
    init], [git add], [git commit] are run only after the development
    tools were installed; the presence of [gh] is checked only after the
    commit succeeded, the repository is created only after that check
    succeeded, and the push is attempted only after the creation
    succeeded. *)
Theorem main_steps_in_order (argv : list string) (fs : gmap string node) :
  let t := trace (script argv fs) in
  guarded is_venv (is_command is_pip) false t = true
  /\ guarded is_pip_requirements is_layout_or_git false t = true
  /\ guarded is_git_commit (is_command is_gh_version) false t = true
  /\ guarded is_gh_version (is_command is_repo_create) false t = true
  /\ guarded is_repo_create (is_command is_push) false t = true.
Proof.
  destruct (main_order argv fs) as (H1 & H2 & H3 & H4 & H5 & _).
  repeat split; assumption.
Qed.

(** X11: once [git add .] has been run, the script makes no directory and
    writes no file any more: whatever it generates is there when the files
    are staged for the initial commit. *)
Theorem main_writes_before_staging (argv : list string)
    (fs : gmap string node) :
  never_after is_git_add is_file_event false (trace (script argv fs)) = true.
Proof. exact (proj2 (proj2 (proj2 (proj2 (proj2 (main_order argv fs)))))). Qed.

(** X12: every [gh repo create] of a run names the derived project, the
    current directory as source and [origin] as remote, and asks for a
    public repository exactly when [--public] is among the arguments;
    otherwise the repository is private. *)
Theorem main_repository_visibility (argv : list string)
    (fs : gmap string node) :
  Forall (fun cmd =>
            is_repo_create cmd = true ->
            cmd = create_command (name_of argv)
                    (if Text.mem "--public" argv then "public" else "private"))
    (commands (trace (script argv fs))).
Proof. exact (proj1 (main_remote_commands argv fs)). Qed.

(** X13: no run prints the manual instructions twice. A run that [main]
    brings to its end either pushed the initial commit, and then printed
    [Initial commit pushed to GitHub.] and no instructions, or did not,
    and then printed the instructions exactly once. *)
Theorem main_instructions_or_push (argv : list string)
    (fs : gmap string node) :
  let r := script argv fs in
  let heading := instructions_heading (name_of argv) in
  (count_block [heading] (printed (trace r)) <= 1)%nat
  /\ (res r = Ok tt ->
      if succeeded is_push (trace r)
      then count_block [heading] (printed (trace r)) = 0%nat
           /\ count_block ["Initial commit pushed to GitHub."]
                (printed (trace r)) = 1%nat
      else count_block [heading] (printed (trace r)) = 1%nat).
Proof. exact (proj2 (main_remote_commands argv fs)). Qed.

End Artifacts.

(** ** The whole run, on sample hosts *)

Local Abbreviation sample_run sh argv fs :=
  (main sh "posix" "my_project" Sample.str_error argv fs).

Lemma main_completed_tree_witness :
  res (sample_run Sample.sh_all_ok Sample.argv_acme ∅) = Ok tt
  /\ Forall (fun path => exists text,
               files (sample_run Sample.sh_all_ok Sample.argv_acme ∅)
                 !! path = Some (File text))
       (artifacts (get_project_name "my_project" "acme"))
  /\ Forall (fun d => files (sample_run Sample.sh_all_ok Sample.argv_acme ∅)
                        !! d = Some Dir)
       (layout_directories (get_project_name "my_project" "acme")).
Proof.
  assert (H : res (sample_run Sample.sh_all_ok Sample.argv_acme ∅) = Ok tt)
    by (vm_compute; reflexivity).
  pose proof (main_completed_tree Sample.sh_all_ok "posix" "my_project"
                Sample.str_error Sample.argv_acme ∅ H) as Hdone.
  split; [exact H|exact Hdone].
Defined.

Lemma main_repository_visibility_witness :
  In (create_command "acme-my-project" "public")
    (commands (trace (sample_run Sample.sh_all_ok
                        SampleTree.argv_acme_public ∅)))
  /\ forall cmd,
       In cmd (commands (trace (sample_run Sample.sh_all_ok
                                  SampleTree.argv_acme_public ∅))) ->
       is_repo_create cmd = true ->
       cmd = create_command "acme-my-project" "public".
Proof.
  assert (H : In (create_command "acme-my-project" "public")
                (commands (trace (sample_run Sample.sh_all_ok
                                    SampleTree.argv_acme_public ∅))))
    by (vm_compute; repeat first [left; reflexivity | right]).
  pose proof (main_repository_visibility Sample.sh_all_ok "posix"
                "my_project" Sample.str_error SampleTree.argv_acme_public ∅)
    as Hall.
  split; [exact H|].
  intros cmd Hin Hcreate.
  exact (proj1 (Forall_forall _ _) Hall cmd
           (proj2 (list_elem_of_In _ _) Hin) Hcreate).
Defined.

Lemma main_instructions_or_push_witness :
  res (sample_run Sample.sh_all_ok Sample.argv_acme ∅) = Ok tt
  /\ succeeded is_push
       (trace (sample_run Sample.sh_all_ok Sample.argv_acme ∅)) = true
  /\ count_block ["Initial commit pushed to GitHub."]
       (printed (trace (sample_run Sample.sh_all_ok Sample.argv_acme ∅)))
     = 1%nat
  /\ res (sample_run Sample.sh_push_fails Sample.argv_acme ∅) = Ok tt
  /\ succeeded is_push
       (trace (sample_run Sample.sh_push_fails Sample.argv_acme ∅)) = false
  /\ count_block
       [instructions_heading (get_project_name "my_project" "acme")]
       (printed (trace (sample_run Sample.sh_push_fails Sample.argv_acme ∅)))
     = 1%nat.
Proof.
  assert (H1 : res (sample_run Sample.sh_all_ok Sample.argv_acme ∅) = Ok tt)
    by (vm_compute; reflexivity).
  assert (H2 : succeeded is_push
                 (trace (sample_run Sample.sh_all_ok Sample.argv_acme ∅))
               = true) by (vm_compute; reflexivity).
  assert (H3 : res (sample_run Sample.sh_push_fails Sample.argv_acme ∅)
               = Ok tt) by (vm_compute; reflexivity).
  assert (H4 : succeeded is_push
                 (trace (sample_run Sample.sh_push_fails Sample.argv_acme ∅))
               = false) by (vm_compute; reflexivity).
  pose proof (main_instructions_or_push Sample.sh_all_ok "posix"
                "my_project" Sample.str_error Sample.argv_acme ∅) as Hok.
  pose proof (main_instructions_or_push Sample.sh_push_fails "posix"
                "my_project" Sample.str_error Sample.argv_acme ∅) as Hfail.
  cbv zeta in Hok, Hfail.
  destruct Hok as [_ Hok]. destruct Hfail as [_ Hfail].
  specialize (Hok H1). specialize (Hfail H3).
  rewrite H2 in Hok. rewrite H4 in Hfail.
  split; [exact H1|]. split; [exact H2|]. split; [exact (proj2 Hok)|].
  split; [exact H3|]. split; [exact H4|exact Hfail].
Defined.
